(** * enigma-forense: reputation gate, counters and difficulty tiers

    A shallow embedding of the two server-side sources of the repository,
    [vpnDetection.js] (the [VpnDetectionService] class with its cache and
    its Express middleware) and the Express/Socket.IO server (the inline
    [checkVpn] gate, the HTTP handlers and the realtime handlers), with the
    properties of the specification stated over that embedding.

    Conventions.  JavaScript numbers that the code only counts with or
    compares (counters, millisecond timestamps) are [Z]; a value returned
    by [Math.random()] is a [Q]; strings are [string]; [Map] objects and
    Firebase nodes are [gmap]s.  Everything the outside world decides (the
    clock, the answer of the reputation provider, random draws, Firebase
    failures) is an explicit input of the function that consumes it. *)

From Stdlib Require Import ZArith QArith Qround Bool Ascii String List Lia.
From stdpp Require Import gmap strings list pretty.

#[local] Set Warnings "-register-all".
Local Open Scope Z_scope.

(** ** JavaScript values *)

Module Js.

(** The primitive values that flow through the code. *)
Inductive JsVal :=
| VUndefined
| VNull
| VBool (b : bool)
| VNum (n : Z)
| VStr (s : string).

(** [ToBoolean]. *)
Definition truthy (v : JsVal) : bool :=
  match v with
  | VUndefined | VNull => false
  | VBool b => b
  | VNum n => negb (n =? 0)
  | VStr s => negb (String.eqb s "")
  end.

(** [a || b] on values. *)
Definition or (a b : JsVal) : JsVal := if truthy a then a else b.

(** [a || b] where both are strings or [undefined]. *)
Definition or_str (a b : option string) : option string :=
  match a with
  | Some s => if String.eqb s "" then b else a
  | None => b
  end.

(** JSON bodies handed to [res.json]. *)
Inductive Json :=
| JV (v : JsVal)
| JO (fields : list (string * Json)).

(** Result of a block that may throw. *)
Inductive Res (A : Type) :=
| Ok (a : A)
| Throw (e : string).
Arguments Ok {A} a.
Arguments Throw {A} e.

(** [drop_prefix p s] is [Some r] when [s = p ++ r]. *)
Fixpoint drop_prefix (p s : string) : option string :=
  match p with
  | EmptyString => Some s
  | String a p' =>
      match s with
      | EmptyString => None
      | String b s' => if Ascii.eqb a b then drop_prefix p' s' else None
      end
  end.

(** [s.startsWith(p)]. *)
Definition startsWith (s p : string) : bool :=
  match drop_prefix p s with
  | Some _ => true
  | None => false
  end.

(** [s.replace(/^::ffff:/, '')]. *)
Definition replace_ffff (s : string) : string :=
  match drop_prefix "::ffff:" s with
  | Some r => r
  | None => s
  end.

(** [x < y] on the rationals standing for [Math.random()] draws. *)
Definition Qltb (x y : Q) : bool := negb (Qle_bool y x).

End Js.
Import Js.

(** ** Requests and gate outcomes (shared by both sources) *)

(** The parts of an Express request the code reads.  [connection] is
    [req.connection]; its content is [remoteAddress].  [userId] and
    [level] are the body fields as the handlers interpolate them into
    Firebase paths and keys. *)
Record Request := {
  x_forwarded_for : option string;
  x_real_ip : option string;
  connection : option (option string);
  userId : string;
  level : string
}.

(** What a middleware or handler does with the request: call [next()],
    or answer with [res.status(code).json(body)]. *)
Inductive Outcome :=
| Next
| Respond (status : Z) (body : Json).

(** [req.connection.remoteAddress]; reading a property of [undefined]
    throws a [TypeError]. *)
Definition remoteAddress (req : Request) : Res (option string) :=
  match connection req with
  | Some a => Ok a
  | None => Throw "TypeError"
  end.

(** ** vpnDetection.js *)

Module VpnDetection.

(** The object built by [checkIp].  A property that an object literal
    does not carry reads as [undefined]. *)
Record Verdict := {
  isVpn : JsVal;
  proxy : JsVal;
  vpn : JsVal;
  tor : JsVal;
  fraudScore : JsVal;
  country : JsVal;
  isp : JsVal
}.

(** [{ isVpn: false, proxy: false, vpn: false, tor: false }]. *)
Definition allow_verdict : Verdict :=
  {| isVpn := VBool false; proxy := VBool false; vpn := VBool false;
     tor := VBool false; fraudScore := VUndefined; country := VUndefined;
     isp := VUndefined |}.

Record CacheEntry := { timestamp : Z; data : Verdict }.

Record Service := {
  apiKey : option string;
  enabled : bool;
  cache : gmap string CacheEntry;
  cacheExpiration : Z
}.

(** [constructor()]: the two arguments are the environment variables
    [IPQUALITYSCORE_API_KEY] and [VPN_DETECTION_ENABLED]. *)
Definition constructor (env_key env_enabled : option string) : Service :=
  {| apiKey := env_key;
     enabled := match env_enabled with
                | Some s => String.eqb s "true"
                | None => false
                end;
     cache := ∅;
     cacheExpiration := 3600000 |}.

Definition set_cache (c : gmap string CacheEntry) (svc : Service) : Service :=
  {| apiKey := apiKey svc; enabled := enabled svc; cache := c;
     cacheExpiration := cacheExpiration svc |}.

(** [clearCache()]. *)
Definition clearCache (svc : Service) : Service := set_cache ∅ svc.

(** [response.data] of a resolved [axios.get]. *)
Record ResponseData := {
  r_proxy : JsVal;
  r_vpn : JsVal;
  r_tor : JsVal;
  r_fraud_score : JsVal;
  r_country_code : JsVal;
  r_ISP : JsVal
}.

(** How [await axios.get(...)] ends: the promise rejects (timeout,
    network error, a status outside 2xx such as a quota refusal), or it
    resolves with [response.data], which is [None] when the body is
    [null]; a body of another shape carries [undefined] properties. *)
Inductive AxiosOutcome :=
| Rejected
| Resolved (d : option ResponseData).

(** What the world supplies to one call of [checkIp]. *)
Record CheckEnv := {
  now_check : Z;           (* Date.now() at the cache test *)
  axios_get : AxiosOutcome;
  now_store : Z;           (* Date.now() when the result is stored *)
  random : nat -> Q        (* successive Math.random() draws *)
}.

(** [this.apiKey && this.apiKey !== 'your_api_key_here']. *)
Definition has_real_key (svc : Service) : bool :=
  match apiKey svc with
  | Some k => negb (String.eqb k "") && negb (String.eqb k "your_api_key_here")
  | None => false
  end.

Definition result_of_response (d : ResponseData) : Verdict :=
  {| isVpn := Js.or (Js.or (r_proxy d) (r_vpn d)) (r_tor d);
     proxy := r_proxy d;
     vpn := r_vpn d;
     tor := r_tor d;
     fraudScore := r_fraud_score d;
     country := r_country_code d;
     isp := r_ISP d |}.

(** The development branch: [isVpn && Math.random() < p] draws only when
    [isVpn] holds, so the draws are numbered in evaluation order. *)
Definition simulated_result (rnd : nat -> Q) : Verdict :=
  let isVpn := Qltb (rnd 0%nat) (5 # 100) in
  if isVpn then
    {| isVpn := VBool true;
       proxy := VBool (Qltb (rnd 1%nat) (5 # 10));
       vpn := VBool (Qltb (rnd 2%nat) (7 # 10));
       tor := VBool (Qltb (rnd 3%nat) (2 # 10));
       fraudScore := VNum (Qfloor (rnd 4%nat * 50) + 50);
       country := VStr "US";
       isp := VStr "Simulated ISP" |}
  else
    {| isVpn := VBool false;
       proxy := VBool false;
       vpn := VBool false;
       tor := VBool false;
       fraudScore := VNum (Qfloor (rnd 1%nat * 30));
       country := VStr "US";
       isp := VStr "Simulated ISP" |}.

(** The [try { ... } catch] block of [checkIp], entered with the cache
    [c] left by the cache test.  Returns the verdict, the cache and the
    addresses for which the provider was requested. *)
Definition lookup_provider (svc : Service) (c : gmap string CacheEntry)
    (ip : string) (env : CheckEnv)
  : Verdict * gmap string CacheEntry * list string :=
  if has_real_key svc then
    match axios_get env with
    | Rejected => (allow_verdict, c, [ip])
    | Resolved None => (allow_verdict, c, [ip])
    | Resolved (Some d) =>
        let result := result_of_response d in
        (result, <[ip := {| timestamp := now_store env; data := result |}]> c, [ip])
    end
  else
    let result := simulated_result (random env) in
    (result, <[ip := {| timestamp := now_store env; data := result |}]> c, []).

(** [async checkIp(ip)]. *)
Definition checkIp (svc : Service) (ip : string) (env : CheckEnv)
  : Verdict * Service * list string :=
  if negb (enabled svc) then (allow_verdict, svc, [])
  else
    match cache svc !! ip with
    | Some cachedResult =>
        if now_check env - timestamp cachedResult <? cacheExpiration svc
        then (data cachedResult, svc, [])
        else
          let '(v, c, calls) := lookup_provider svc (delete ip (cache svc)) ip env in
          (v, set_cache c svc, calls)
    | None =>
        let '(v, c, calls) := lookup_provider svc (cache svc) ip env in
        (v, set_cache c svc, calls)
    end.

(** [req.headers['x-forwarded-for'] || req.headers['x-real-ip'] ||
    req.connection.remoteAddress]: the last operand is evaluated only
    when both headers are falsy. *)
Definition client_ip (req : Request) : Res (option string) :=
  match Js.or_str (x_forwarded_for req) (x_real_ip req) with
  | Some s => if String.eqb s "" then remoteAddress req else Ok (Some s)
  | None => remoteAddress req
  end.

(** [ip.replace(/^::ffff:/, '')]; calling a method on [undefined]
    throws. *)
Definition clean_ip (ip : option string) : Res string :=
  match ip with
  | Some s => Ok (replace_ffff s)
  | None => Throw "TypeError"
  end.

(** The test that lets local addresses through. *)
Definition is_local (cleanIp : string) : bool :=
  String.eqb cleanIp "127.0.0.1" || String.eqb cleanIp "localhost"
  || startsWith cleanIp "192.168." || startsWith cleanIp "10.".

Definition blocked_body (result : Verdict) : Json :=
  JO [("error", JV (VStr "Acesso bloqueado"));
      ("message", JV (VStr "VPN, proxy ou Tor detectado. Por razões de segurança, o acesso ao sistema de enigmas forenses não é permitido através dessas redes."));
      ("details", JO [("proxy", JV (proxy result));
                      ("vpn", JV (vpn result));
                      ("tor", JV (tor result))])].

(** What one run of the middleware leaves behind: the outcome, the
    service, [req.vpnCheck] and the provider requests issued. *)
Record Run := {
  outcome : Outcome;
  service : Service;
  vpnCheck : option Verdict;
  provider_calls : list string
}.

(** The [try] block of the middleware. *)
Definition middleware_try (svc : Service) (req : Request) (env : CheckEnv)
  : Res Run :=
  match client_ip req with
  | Throw e => Throw e
  | Ok ip =>
      match clean_ip ip with
      | Throw e => Throw e
      | Ok cleanIp =>
          if is_local cleanIp then
            Ok {| outcome := Next; service := svc; vpnCheck := None;
                  provider_calls := [] |}
          else
            let '(result, svc', calls) := checkIp svc cleanIp env in
            if truthy (isVpn result) then
              Ok {| outcome := Respond 403 (blocked_body result);
                    service := svc'; vpnCheck := Some result;
                    provider_calls := calls |}
            else
              Ok {| outcome := Next; service := svc'; vpnCheck := Some result;
                    provider_calls := calls |}
      end
  end.

(** [middleware()]: the [catch] clause logs and calls [next()].  What
    can throw in the [try] block is the reading of the address, before
    the service is touched.  The result is again a [Res] so that an
    escaping exception would show. *)
Definition middleware (svc : Service) (req : Request) (env : CheckEnv)
  : Res Run :=
  match middleware_try svc req env with
  | Ok r => Ok r
  | Throw _ =>
      Ok {| outcome := Next; service := svc; vpnCheck := None;
            provider_calls := [] |}
  end.

End VpnDetection.

(** ** The Express / Socket.IO server *)

Module Server.

(** The Firebase node [stats]; a child that was never written is
    absent. *)
Record Stats := {
  st_activeUsers : option Z;
  st_activatedEnigmas : option Z;
  st_solvedEnigmas : option Z
}.

(** The two events the server emits. *)
Inductive Event :=
| stats_update (active activated solved : Z)
| difficulty_change (lvl : Z).

(** The three module-level counters, the two Firebase nodes the code
    touches, the connected sockets, and the log of [io.emit] calls, each
    with the sockets it was delivered to. *)
Record State := {
  activeUsers : Z;
  activatedEnigmas : Z;
  solvedEnigmas : Z;
  users : gmap string (gmap string JsVal);
  stats : option Stats;
  sockets : list string;
  emitted : list (list string * Event)
}.

Definition initial : State :=
  {| activeUsers := 0; activatedEnigmas := 0; solvedEnigmas := 0;
     users := ∅; stats := None; sockets := []; emitted := [] |}.

Definition set_activeUsers (n : Z) (s : State) : State :=
  {| activeUsers := n; activatedEnigmas := activatedEnigmas s;
     solvedEnigmas := solvedEnigmas s; users := users s; stats := stats s;
     sockets := sockets s; emitted := emitted s |}.

Definition set_activatedEnigmas (n : Z) (s : State) : State :=
  {| activeUsers := activeUsers s; activatedEnigmas := n;
     solvedEnigmas := solvedEnigmas s; users := users s; stats := stats s;
     sockets := sockets s; emitted := emitted s |}.

Definition set_solvedEnigmas (n : Z) (s : State) : State :=
  {| activeUsers := activeUsers s; activatedEnigmas := activatedEnigmas s;
     solvedEnigmas := n; users := users s; stats := stats s;
     sockets := sockets s; emitted := emitted s |}.

Definition set_users (u : gmap string (gmap string JsVal)) (s : State) : State :=
  {| activeUsers := activeUsers s; activatedEnigmas := activatedEnigmas s;
     solvedEnigmas := solvedEnigmas s; users := u; stats := stats s;
     sockets := sockets s; emitted := emitted s |}.

Definition set_stats (x : option Stats) (s : State) : State :=
  {| activeUsers := activeUsers s; activatedEnigmas := activatedEnigmas s;
     solvedEnigmas := solvedEnigmas s; users := users s; stats := x;
     sockets := sockets s; emitted := emitted s |}.

Definition set_sockets (l : list string) (s : State) : State :=
  {| activeUsers := activeUsers s; activatedEnigmas := activatedEnigmas s;
     solvedEnigmas := solvedEnigmas s; users := users s; stats := stats s;
     sockets := l; emitted := emitted s |}.

Definition set_emitted (l : list (list string * Event)) (s : State) : State :=
  {| activeUsers := activeUsers s; activatedEnigmas := activatedEnigmas s;
     solvedEnigmas := solvedEnigmas s; users := users s; stats := stats s;
     sockets := sockets s; emitted := l |}.

(** The in-memory counters and the persisted ones. *)
Definition counters (s : State) : Z * Z * Z :=
  (activeUsers s, activatedEnigmas s, solvedEnigmas s).

(** What the world supplies to one handler run: the [Math.random()] draw
    of the gate, which of the Firebase operations of the run reject
    (numbered in program order), and the server timestamp. *)
Record World := {
  draw : Q;
  rejects : nat -> bool;
  server_time : Z
}.

(** *** Handlers as state transformers that may throw *)

Definition M (A : Type) : Type := State -> Res A * State.

Definition ret {A} (a : A) : M A := fun s => (Ok a, s).

Definition bind {A B} (m : M A) (k : A -> M B) : M B :=
  fun s =>
    match m s with
    | (Ok a, s') => k a s'
    | (Throw e, s') => (Throw e, s')
    end.

(** [try { m } catch (error) { h }]. *)
Definition try_catch {A} (m : M A) (h : M A) : M A :=
  fun s =>
    match m s with
    | (Ok a, s') => (Ok a, s')
    | (Throw _, s') => h s'
    end.

Declare Scope handler_scope.
Delimit Scope handler_scope with handler.
Notation "x <- m ;; k" := (bind m (fun x => k))
  (at level 100, m at next level, right associativity) : handler_scope.
Notation "m ;; k" := (bind m (fun _ => k))
  (at level 100, right associativity) : handler_scope.

(** An awaited Firebase operation: number [k] of the run. *)
Definition firebase {A} (w : World) (k : nat) (op : State -> A * State) : M A :=
  fun s =>
    if rejects w k then (Throw "FirebaseError", s)
    else let (a, s') := op s in (Ok a, s').

(** [db.ref(`users/${userId}`).once('value')] for a [userId] that names
    one child of [users]: the node of that child, [None] when
    [snapshot.exists()] is false.  The store keeps the users by key; what
    the path of an empty [userId], or of one holding a separator,
    addresses is outside it. *)
Definition user_once (uid : string) (s : State) : option (gmap string JsVal) * State :=
  (users s !! uid, s).

(** [userRef.update(fields)] for fields whose names are single keys:
    writes the given children of the node. *)
Definition user_update (uid : string) (fields : gmap string JsVal) (s : State)
  : unit * State :=
  (tt, set_users (<[uid := fields ∪ default ∅ (users s !! uid)]> (users s)) s).

(** [statsRef.once('value')]. *)
Definition stats_once (s : State) : option Stats * State := (stats s, s).

(** [statsRef.transaction(f)]. *)
Definition stats_transaction (f : option Stats -> Stats) (s : State) : unit * State :=
  (tt, set_stats (Some (f (stats s))) s).

(** [x || 0] on a counter child. *)
Definition or0 (x : option Z) : Z := default 0 x.

(** [stats = stats || { activeUsers: 0, activatedEnigmas: 0, solvedEnigmas: 0 }]. *)
Definition or_zero_stats (x : option Stats) : Stats :=
  default {| st_activeUsers := Some 0; st_activatedEnigmas := Some 0;
             st_solvedEnigmas := Some 0 |} x.

Definition bump_activated (x : option Stats) : Stats :=
  let stats := or_zero_stats x in
  {| st_activeUsers := st_activeUsers stats;
     st_activatedEnigmas := Some (or0 (st_activatedEnigmas stats) + 1);
     st_solvedEnigmas := st_solvedEnigmas stats |}.

Definition bump_solved (x : option Stats) : Stats :=
  let stats := or_zero_stats x in
  {| st_activeUsers := st_activeUsers stats;
     st_activatedEnigmas := st_activatedEnigmas stats;
     st_solvedEnigmas := Some (or0 (st_solvedEnigmas stats) + 1) |}.

(** The difficulty rule, written out twice in the source (HTTP handler
    and socket handler) with the same thresholds. *)
Definition newDifficulty (solved : Z) : Z :=
  if 1000 <=? solved then 3
  else if 100 <=? solved then 2
  else 1.

(** The rule applied to [currentStats.solvedEnigmas]; a comparison with
    [undefined] is false. *)
Definition newDifficulty_of (x : option Z) : Z :=
  match x with
  | Some n => newDifficulty n
  | None => 1
  end.

(** *** The inline gate *)

(** The [try] block of [checkVpn]: the address is read and not used. *)
Definition checkVpn_try (req : Request) (w : World) : Res Outcome :=
  let ip :=
    match x_forwarded_for req with
    | Some s => if String.eqb s "" then remoteAddress req else Ok (Some s)
    | None => remoteAddress req
    end in
  match ip with
  | Throw e => Throw e
  | Ok _ =>
      if Qltb (draw w) (5 # 100) then
        Ok (Respond 403 (JO [("error", JV (VStr "VPN ou Tor detectado. Acesso bloqueado."))]))
      else Ok Next
  end.

Definition checkVpn (req : Request) (w : World) : Res Outcome :=
  match checkVpn_try req w with
  | Ok o => Ok o
  | Throw _ => Ok Next
  end.

(** [app.METHOD(path, checkVpn, handler)]: the handler runs when the
    gate calls [next()]. *)
Definition gated (handler : Request -> World -> M Outcome) (req : Request) (w : World)
  : M Outcome :=
  fun s =>
    match checkVpn req w with
    | Ok Next => handler req w s
    | Ok r => (Ok r, s)
    | Throw e => (Throw e, s)
    end.

Definition error_body (msg : string) : Json := JO [("error", JV (VStr msg))].

(** *** HTTP handlers *)

Local Open Scope handler_scope.

(** Handler of [POST /api/activate-enigma]. *)
Definition activate_enigma (req : Request) (w : World) : M Outcome :=
  try_catch
    (snapshot <- firebase w 0 (user_once (userId req)) ;;
     match snapshot with
     | None => ret (Respond 404 (error_body "Usuário não encontrado"))
     | Some _ =>
         firebase w 1 (user_update (userId req)
           {[ "enigmaActivated" := VBool true;
              "activationTime" := VNum (server_time w) ]}) ;;
         firebase w 2 (stats_transaction bump_activated) ;;
         ret (Respond 200 (JO [("success", JV (VBool true))]))
     end)
    (ret (Respond 500 (error_body "Erro ao ativar enigma"))).

(** Handler of [POST /api/solve-enigma]. *)
Definition solve_enigma (req : Request) (w : World) : M Outcome :=
  try_catch
    (snapshot <- firebase w 0 (user_once (userId req)) ;;
     match snapshot with
     | None => ret (Respond 404 (error_body "Usuário não encontrado"))
     | Some _ =>
         firebase w 1 (user_update (userId req)
           {[ "enigmaSolved_" +:+ level req := VBool true;
              "solutionTime_" +:+ level req := VNum (server_time w) ]}) ;;
         firebase w 2 (stats_transaction bump_solved) ;;
         currentStats <- firebase w 3 stats_once ;;
         let lvl := match currentStats with
                    | Some c => newDifficulty_of (st_solvedEnigmas c)
                    | None => newDifficulty_of (Some 0)
                    end in
         ret (Respond 200 (JO [("success", JV (VBool true));
                               ("newDifficulty", JV (VNum lvl))]))
     end)
    (ret (Respond 500 (error_body "Erro ao resolver enigma"))).

Definition post_activate_enigma : Request -> World -> M Outcome := gated activate_enigma.
Definition post_solve_enigma : Request -> World -> M Outcome := gated solve_enigma.

Local Close Scope handler_scope.

(** *** Realtime handlers *)

(** [io.emit(event, payload)]: delivered to every connected socket. *)
Definition io_emit (ev : Event) (s : State) : State :=
  set_emitted (emitted s ++ [(sockets s, ev)]) s.

Definition emit_stats (s : State) : State :=
  io_emit (stats_update (activeUsers s) (activatedEnigmas s) (solvedEnigmas s)) s.

(** [statsRef.update({ child })], not awaited: when it rejects nothing
    is written and the handler goes on. *)
Definition stats_update_child (w : World) (k : nat) (f : Stats -> Stats) (s : State) : State :=
  if rejects w k then s
  else set_stats (Some (f (default {| st_activeUsers := None;
                                       st_activatedEnigmas := None;
                                       st_solvedEnigmas := None |} (stats s)))) s.

(** Body of [io.on('connection', ...)]. *)
Definition on_connection (s : State) : State :=
  emit_stats (set_activeUsers (activeUsers s + 1) s).

(** Body of [socket.on('disconnect', ...)]. *)
Definition on_disconnect (s : State) : State :=
  emit_stats (set_activeUsers (Z.max 0 (activeUsers s - 1)) s).

(** Body of [socket.on('enigma_activated', ...)]. *)
Definition on_enigma_activated (w : World) (s : State) : State :=
  let s := emit_stats (set_activatedEnigmas (activatedEnigmas s + 1) s) in
  stats_update_child w 0
    (fun x => {| st_activeUsers := st_activeUsers x;
                 st_activatedEnigmas := Some (activatedEnigmas s);
                 st_solvedEnigmas := st_solvedEnigmas x |}) s.

(** Body of [socket.on('enigma_solved', ...)]. *)
Definition on_enigma_solved (w : World) (s : State) : State :=
  let s := emit_stats (set_solvedEnigmas (solvedEnigmas s + 1) s) in
  let s := stats_update_child w 0
    (fun x => {| st_activeUsers := st_activeUsers x;
                 st_activatedEnigmas := st_activatedEnigmas x;
                 st_solvedEnigmas := Some (solvedEnigmas s) |}) s in
  let lvl := newDifficulty (solvedEnigmas s) in
  if 1 <? lvl then io_emit (difficulty_change lvl) s else s.

(** What the socket layer hands to the server.  A socket is in the
    list of connected sockets when its [connection] handler runs, and
    out of it when its [disconnect] handler runs; events of a socket
    that is not connected reach no handler. *)
Inductive Incoming :=
| Connect (id : string)
| Disconnect (id : string)
| EnigmaActivated (id : string)
| EnigmaSolved (id : string).

Definition connected (id : string) (s : State) : bool :=
  bool_decide (id ∈ sockets s).

Definition socket_step (w : World) (ev : Incoming) (s : State) : State :=
  match ev with
  | Connect id =>
      if connected id s then s
      else on_connection (set_sockets (sockets s ++ [id]) s)
  | Disconnect id =>
      if connected id s
      then on_disconnect (set_sockets (filter (λ x, x ≠ id) (sockets s)) s)
      else s
  | EnigmaActivated id => if connected id s then on_enigma_activated w s else s
  | EnigmaSolved id => if connected id s then on_enigma_solved w s else s
  end.

(** A run of the socket layer: each event comes with its world. *)
Definition run_events (evs : list (World * Incoming)) (s : State) : State :=
  fold_left (λ s e, socket_step e.1 e.2 s) evs s.

(** [activeUsers] is the number of connected sockets, each listed once. *)
Definition counts_sockets (s : State) : Prop :=
  NoDup (sockets s) ∧ activeUsers s = Z.of_nat (length (sockets s)).

(** [initializeCounters()]. *)
Definition initializeCounters (w : World) : M unit :=
  try_catch
    (bind (firebase w 0 stats_once) (fun x =>
       match x with
       | Some st =>
           fun s =>
             (Ok tt,
              set_solvedEnigmas (or0 (st_solvedEnigmas st))
                (set_activatedEnigmas (or0 (st_activatedEnigmas st))
                   (set_activeUsers (or0 (st_activeUsers st)) s)))
       | None =>
           firebase w 1 (fun s =>
             (tt, set_stats (Some {| st_activeUsers := Some 0;
                                     st_activatedEnigmas := Some 0;
                                     st_solvedEnigmas := Some 0 |}) s))
       end))
    (ret tt).

(** *** Session churn as a sequence of operations *)

Inductive SessionOp := RegisterSession | EndSession.

Definition session_op (op : SessionOp) (s : State) : State :=
  match op with
  | RegisterSession => on_connection s
  | EndSession => on_disconnect s
  end.

Definition run_sessions (ops : list SessionOp) (s : State) : State :=
  fold_left (fun s op => session_op op s) ops s.

Fixpoint registrations (ops : list SessionOp) : Z :=
  match ops with
  | [] => 0
  | RegisterSession :: ops' => 1 + registrations ops'
  | EndSession :: ops' => registrations ops'
  end.

Fixpoint endings (ops : list SessionOp) : Z :=
  match ops with
  | [] => 0
  | RegisterSession :: ops' => endings ops'
  | EndSession :: ops' => 1 + endings ops'
  end.

End Server.

(** ** Statements of the specification that the code does not meet as
    written, kept as named propositions *)

Module Stated.
Import Server.

(** The events emitted between two states. *)
Definition new_emissions (s s' : State) : list (list string * Event) :=
  drop (length (emitted s)) (emitted s').

Definition notifies_difficulty (s s' : State) : Prop :=
  ∃ to lvl, (to, difficulty_change lvl) ∈ new_emissions s s'.

Definition broadcasts_stats (s s' : State) : Prop :=
  ∃ to a b c, (to, stats_update a b c) ∈ new_emissions s s'.

(** The tier of the count before the solve differs from the tier after. *)
Definition tier_changed (s s' : State) : Prop :=
  newDifficulty (solvedEnigmas s') ≠ newDifficulty (solvedEnigmas s).

(** "A difficulty-change notification is broadcast if and only if the
    tier changed." *)
Definition notification_iff_tier_changed (w : World) (s : State) : Prop :=
  notifies_difficulty s (on_enigma_solved w s)
  ↔ tier_changed s (on_enigma_solved w s).

(** "After a mutation triggered by the HTTP path the snapshot is
    broadcast." *)
Definition http_solve_broadcasts (req : Request) (w : World) (s : State) : Prop :=
  let s' := snd (post_solve_enigma req w s) in
  stats s' ≠ stats s → broadcasts_stats s s'.

(** "activeUsers equals registrations minus endings clamped at 0." *)
Definition active_is_clamped_difference (ops : list SessionOp) : Prop :=
  activeUsers (run_sessions ops initial)
  = Z.max 0 (registrations ops - endings ops).

(** No [EndSession] of the sequence arrives while the counter is 0. *)
Fixpoint no_end_at_zero (ops : list SessionOp) (s : State) : bool :=
  match ops with
  | [] => true
  | op :: ops' =>
      match op with
      | EndSession => 0 <? activeUsers s
      | RegisterSession => true
      end && no_end_at_zero ops' (session_op op s)
  end.

End Stated.

(** Notions of the specification about the reputation gate. *)

Module Gate.
Import VpnDetection Server.

(** An IPv4 address and its dotted-decimal text. *)
Record IPv4 := { o1 : N; o2 : N; o3 : N; o4 : N }.

Definition dotted (a : IPv4) : string :=
  pretty (o1 a) +:+ "." +:+ pretty (o2 a) +:+ "." +:+ pretty (o3 a)
  +:+ "." +:+ pretty (o4 a).

(** 127.0.0.1, 10.0.0.0/8 and 192.168.0.0/16. *)
Definition private_or_loopback (a : IPv4) : bool :=
  ((o1 a =? 127) && (o2 a =? 0) && (o3 a =? 0) && (o4 a =? 1))%N
  || (o1 a =? 10)%N
  || ((o1 a =? 192) && (o2 a =? 168))%N.

(** The provider call fails: control reaches the [catch] clause of
    [checkIp], because the request rejects or because the response has no
    body to read the verdict from. *)
Definition failed (o : AxiosOutcome) : bool :=
  match o with
  | Rejected => true
  | Resolved None => true
  | Resolved (Some _) => false
  end.

(** Reading a field of a JSON object. *)
Fixpoint assoc (k : string) (fs : list (string * Json)) : option Json :=
  match fs with
  | [] => None
  | (k', v) :: fs' => if String.eqb k k' then Some v else assoc k fs'
  end.

Definition field (k : string) (j : Json) : option Json :=
  match j with
  | JO fs => assoc k fs
  | JV _ => None
  end.

(** A body [{error, message, details: {proxy, vpn, tor}}]. *)
Definition rejection_shape (body : Json) : Prop :=
  is_Some (field "error" body) ∧ is_Some (field "message" body) ∧
  ∃ d, field "details" body = Some d ∧ is_Some (field "proxy" d) ∧
       is_Some (field "vpn" d) ∧ is_Some (field "tor" d).

(** "On every gated endpoint a private or loopback address is admitted":
    the endpoints of the server are gated by [checkVpn]. *)
Definition endpoint_admits_local (a : IPv4) (req : Request) (w : World) : Prop :=
  private_or_loopback a = true →
  x_forwarded_for req = None →
  connection req = Some (Some (dotted a)) →
  checkVpn req w = Ok Next.

(** "On every gated endpoint a rejection is a 403 with error, message
    and details." *)
Definition endpoint_rejection_detailed (req : Request) (w : World) : Prop :=
  ∀ status body,
    checkVpn req w = Ok (Respond status body) →
    status = 403 ∧ rejection_shape body.

(** The components of the result of [checkIp] (and of its provider
    block, whose middle component is the cache). *)
Definition verdict_of {A} (r : Verdict * A * list string) : Verdict := r.1.1.
Definition service_after {A} (r : Verdict * A * list string) : A := r.1.2.
Definition calls_of {A} (r : Verdict * A * list string) : list string := r.2.

(** The provider requests of two successive lookups of one address. *)
Definition calls_of_two_lookups (svc : Service) (ip : string) (env1 env2 : CheckEnv)
  : list string :=
  let '(_, svc1, calls1) := checkIp svc ip env1 in
  let '(_, _, calls2) := checkIp svc1 ip env2 in
  calls1 ++ calls2.

(** The second lookup starts less than the cache lifetime after the
    first, on a clock that does not run backwards. *)
Definition within_ttl (svc : Service) (env1 env2 : CheckEnv) : Prop :=
  now_check env1 <= now_store env1 ∧
  now_check env2 - now_check env1 < cacheExpiration svc.

(** "Two lookups of one address within the cache lifetime invoke the
    provider at most once." *)
Definition two_lookups_one_call (svc : Service) (ip : string) (env1 env2 : CheckEnv)
  : Prop :=
  within_ttl svc env1 env2 →
  (length (calls_of_two_lookups svc ip env1 env2) <= 1)%nat.

(** An enabled service is the only one whose cache is ever written. *)
Definition consistent (svc : Service) : Prop :=
  enabled svc = false → cache svc = ∅.

End Gate.

(** Concrete inputs used to run the definitions. *)

Module Samples.
Import VpnDetection Server Gate.

Definition quiet : World :=
  {| draw := 1 # 2; rejects := λ _, false; server_time := 1700000000000 |}.

(** A world whose gate draw falls below the 5% threshold. *)
Definition unlucky : World :=
  {| draw := 1 # 100; rejects := λ _, false; server_time := 1700000000000 |}.

(** A world in which the fourth Firebase operation of a run rejects. *)
Definition last_read_fails : World :=
  {| draw := 1 # 2; rejects := λ k, Nat.eqb k 3; server_time := 1700000000000 |}.

Definition plain_request (addr uid lvl : string) : Request :=
  {| x_forwarded_for := None; x_real_ip := None;
     connection := Some (Some addr); userId := uid; level := lvl |}.

(** A request from which no address can be read. *)
Definition addressless : Request :=
  {| x_forwarded_for := None; x_real_ip := None;
     connection := Some None; userId := "u1"; level := "1" |}.

Definition one_socket (solved : Z) : State :=
  {| activeUsers := 1; activatedEnigmas := 0; solvedEnigmas := solved;
     users := {[ "u1" := {[ "id" := VStr "u1" ]} ]};
     stats := None; sockets := ["s1"]; emitted := [] |}.

Definition loopback : IPv4 := {| o1 := 127; o2 := 0; o3 := 0; o4 := 1 |}.
Definition lan_host : IPv4 := {| o1 := 192; o2 := 168; o3 := 1; o4 := 20 |}.

Definition production : Service := constructor (Some "k3y") (Some "true").

Definition env_at (t : Z) (o : AxiosOutcome) : CheckEnv :=
  {| now_check := t; axios_get := o; now_store := t + 40; random := λ _, 1 # 2 |}.

Definition tor_exit : ResponseData :=
  {| r_proxy := VBool true; r_vpn := VBool false; r_tor := VBool true;
     r_fraud_score := VNum 90; r_country_code := VStr "NL";
     r_ISP := VStr "Example Hosting" |}.

(** The production service after one successful lookup at time 0. *)
Definition warmed : Service :=
  service_after (checkIp production "203.0.113.5" (env_at 0 (Resolved (Some tor_exit)))).

Definition double_disconnect : list SessionOp :=
  [RegisterSession; EndSession; EndSession; RegisterSession].

End Samples.

(** ** The remaining HTTP routes of the server *)

Module Routes.
Import Server.

#[global] Instance JsVal_eq_dec : EqDecision JsVal.
Proof. solve_decision. Defined.

(** A child of the [stats] node as a JSON member, when it is there. *)
Definition child (k : string) (x : option Z) : list (string * Json) :=
  match x with
  | Some n => [(k, JV (VNum n))]
  | None => []
  end.

(** [snapshot.val()] of the [stats] node: an object with the children
    the node has.  Members are read by key; their order carries no
    meaning. *)
Definition stats_json (st : Stats) : Json :=
  JO (child "activeUsers" (st_activeUsers st)
      ++ child "activatedEnigmas" (st_activatedEnigmas st)
      ++ child "solvedEnigmas" (st_solvedEnigmas st)).

(** [{ activeUsers, activatedEnigmas, solvedEnigmas }] of the module
    variables. *)
Definition counters_json (s : State) : Json :=
  JO [("activeUsers", JV (VNum (activeUsers s)));
      ("activatedEnigmas", JV (VNum (activatedEnigmas s)));
      ("solvedEnigmas", JV (VNum (solvedEnigmas s)))].

(** Handler of [GET /api/stats]. *)
Definition get_stats (req : Request) (w : World) : M Outcome :=
  try_catch
    (bind (firebase w 0 stats_once) (λ snapshot s,
       (Ok (Respond 200 (match snapshot with
                         | Some st => stats_json st
                         | None => counters_json s
                         end)), s)))
    (ret (Respond 500 (error_body "Erro ao buscar estatísticas"))).

Definition get_api_stats : Request -> World -> M Outcome := gated get_stats.

(** What [POST /api/register-user] reads besides the request: the
    [deviceFingerprint] of the body, as the string the client sends, and
    the identifier [uuidv4()] returns. *)
Record Registration := {
  deviceFingerprint : string;
  uuid : string
}.

(** [usersRef.orderByChild('fingerprint').equalTo(fp).once('value')]: the
    users whose [fingerprint] child is [fp]. *)
Definition users_by_fingerprint (fp : string) (s : State)
  : gmap string (gmap string JsVal) * State :=
  (filter (λ kv, kv.2 !! "fingerprint" = Some (VStr fp)) (users s), s).

(** [usersRef.child(userId).set(value)]. *)
Definition user_set (uid : string) (value : gmap string JsVal) (s : State)
  : unit * State :=
  (tt, set_users (<[uid := value]> (users s)) s).

Definition bump_active (x : option Stats) : Stats :=
  let stats := or_zero_stats x in
  {| st_activeUsers := Some (or0 (st_activeUsers stats) + 1);
     st_activatedEnigmas := st_activatedEnigmas stats;
     st_solvedEnigmas := st_solvedEnigmas stats |}.

(** The node written for a new user; [ServerValue.TIMESTAMP] is the
    server time. *)
Definition new_user (reg : Registration) (w : World) : gmap string JsVal :=
  {[ "id" := VStr (uuid reg);
     "fingerprint" := VStr (deviceFingerprint reg);
     "createdAt" := VNum (server_time w);
     "lastSeen" := VNum (server_time w) ]}.

(** [userData.id] as a JSON member value. *)
Definition id_of (userData : gmap string JsVal) : JsVal :=
  default VUndefined (userData !! "id").

(** Handler of [POST /api/register-user].  [first] stands for
    [Object.values(snapshot.val())[0]]: which of several users with one
    fingerprint comes first is decided by the database client. *)
Definition register_user
    (first : gmap string (gmap string JsVal) → option (gmap string JsVal))
    (reg : Registration) (req : Request) (w : World) : M Outcome :=
  try_catch
    (bind (firebase w 0 (users_by_fingerprint (deviceFingerprint reg))) (λ snapshot,
       if decide (snapshot = ∅) then
         bind (firebase w 1 (user_set (uuid reg) (new_user reg w))) (λ _,
         bind (firebase w 2 (stats_transaction bump_active)) (λ _,
         ret (Respond 200 (JO [("userId", JV (VStr (uuid reg)));
                               ("isNew", JV (VBool true))]))))
       else
         match first snapshot with
         | Some userData =>
             ret (Respond 200 (JO [("userId", JV (id_of userData));
                                   ("isNew", JV (VBool false))]))
         | None => λ s, (Throw "TypeError", s)
         end))
    (ret (Respond 500 (error_body "Erro ao registrar usuário"))).

Definition post_register_user
    (first : gmap string (gmap string JsVal) → option (gmap string JsVal))
    (reg : Registration) : Request -> World -> M Outcome :=
  gated (register_user first reg).

(** [first] returns one of the values of the object it is given. *)
Definition picks_a_value
    (first : gmap string (gmap string JsVal) → option (gmap string JsVal)) : Prop :=
  ∀ m, m ≠ ∅ → ∃ k u, first m = Some u ∧ m !! k = Some u.

(** The value under the least key in the order of [map_to_list]: one
    admissible [first]. *)
Definition first_listed (m : gmap string (gmap string JsVal))
  : option (gmap string JsVal) :=
  snd <$> head (map_to_list m).

(** The state a solve leaves after its first three Firebase operations. *)
Definition solved_state (req : Request) (w : World) (u : gmap string JsVal) (s : State)
  : State :=
  set_stats (Some (bump_solved (stats s)))
    (set_users (<[userId req :=
                   {[ "enigmaSolved_" +:+ level req := VBool true;
                      "solutionTime_" +:+ level req := VNum (server_time w) ]} ∪ u]>
                  (users s)) s).

(** The run ends with a response whose status is one the server uses. *)
Definition answers (r : Res Outcome * State) : Prop :=
  ∃ status body,
    r.1 = Ok (Respond status body)
    ∧ (status = 200 ∨ status = 403 ∨ status = 404 ∨ status = 500).

(** No user of the store carries the fingerprint. *)
Definition unknown_fingerprint (fp : string) (s : State) : Prop :=
  ∀ k u, users s !! k = Some u → u !! "fingerprint" ≠ Some (VStr fp).

(** The persisted counters, absent children read as 0. *)
Definition persisted (s : State) : Z * Z * Z :=
  let st := or_zero_stats (stats s) in
  (or0 (st_activeUsers st), or0 (st_activatedEnigmas st), or0 (st_solvedEnigmas st)).

End Routes.

(** ** The provider failures the specification lists *)

Module ProviderFailure.
Import VpnDetection Gate.

(** The body holds none of the three signals [checkIp] reads. *)
Definition no_signals (d : ResponseData) : bool :=
  match r_proxy d, r_vpn d, r_tor d with
  | VUndefined, VUndefined, VUndefined => true
  | _, _, _ => false
  end.

(** "The provider call fails (timeout, malformed response, quota
    error)": the request rejects, the response has no body, or its body
    is not a verdict. *)
Definition unusable (o : AxiosOutcome) : bool :=
  match o with
  | Rejected => true
  | Resolved None => true
  | Resolved (Some d) => no_signals d
  end.

(** "When the provider call fails, no cache entry is stored for that
    address." *)
Definition failure_is_not_cached (svc : Service) (ip : string) (env : CheckEnv) : Prop :=
  calls_of (checkIp svc ip env) = [ip] →
  unusable (axios_get env) = true →
  cache (service_after (checkIp svc ip env)) !! ip = None.

(** The body of a quota refusal: [{success: false, message: ...}], with
    none of the fields [checkIp] reads. *)
Definition quota_message : ResponseData :=
  {| r_proxy := VUndefined; r_vpn := VUndefined; r_tor := VUndefined;
     r_fraud_score := VUndefined; r_country_code := VUndefined;
     r_ISP := VUndefined |}.

End ProviderFailure.

(** ** Identifiers as database keys *)

Module Keys.

(** The characters with a meaning of their own in a database path or
    refused in a key: the separator [/], [.], [#], [$], the brackets, and
    the control characters. *)
Definition special (c : ascii) : bool :=
  let n := nat_of_ascii c in
  (n <? 32)%nat || (n =? 127)%nat
  || Ascii.eqb c "/" || Ascii.eqb c "." || Ascii.eqb c "#" || Ascii.eqb c "$"
  || Ascii.eqb c "[" || Ascii.eqb c "]".

(** No character of the text is special. *)
Fixpoint plain_text (t : string) : bool :=
  match t with
  | EmptyString => true
  | String c t' => negb (special c) && plain_text t'
  end.

(** The string names one child: [users/${userId}] is then the node of
    that child and of nothing else.  The handlers as modelled here treat
    every [userId] as such a key; an empty string, or one with a
    separator, addresses another node in the database. *)
Definition single_key (t : string) : bool :=
  negb (String.eqb t "") && plain_text t.

(** The two keys a solve writes, [enigmaSolved_${level}] and
    [solutionTime_${level}], name one child each of the user node, within
    the length the database accepts for a key path. *)
Definition writable_level (userId level : string) : bool :=
  plain_text level && (String.length userId + String.length level <=? 700)%nat.

End Keys.

(** Concrete inputs for the routes. *)

Module RouteSamples.
Import Server Routes.

Definition device : Registration := {| deviceFingerprint := "f00d"; uuid := "u2" |}.

(** A store in which user [u2] carries the fingerprint of [device]. *)
Definition registered : State :=
  {| activeUsers := 0; activatedEnigmas := 0; solvedEnigmas := 0;
     users := {[ "u2" := new_user device Samples.quiet ]};
     stats := Some (bump_active None); sockets := []; emitted := [] |}.

End RouteSamples.

Import VpnDetection Server Stated Gate.
Import Routes ProviderFailure Keys.

(** ** Difficulty tiers *)

Section Difficulty.

Lemma newDifficulty_range solved : 1 <= newDifficulty solved <= 3.
Proof. unfold newDifficulty. repeat case_match; lia. Qed.

Lemma newDifficulty_gt_1 solved : 1 < newDifficulty solved ↔ 100 <= solved.
Proof.
  unfold newDifficulty.
  destruct (Z.leb_spec 1000 solved), (Z.leb_spec 100 solved); lia.
Qed.

(** One more solve keeps the tier or raises it. *)
Lemma newDifficulty_step solved : newDifficulty solved <= newDifficulty (solved + 1).
Proof.
  unfold newDifficulty.
  destruct (Z.leb_spec 1000 solved), (Z.leb_spec 100 solved),
    (Z.leb_spec 1000 (solved + 1)), (Z.leb_spec 100 (solved + 1)); lia.
Qed.

(** C1.  The difficulty tier computed from the solved count is 1 below
    100, 2 from 100 up to 999, 3 from 1000 on, for every non-negative
    count, and it never decreases when the count grows. *)
Theorem C1_difficulty_thresholds_monotone (solved : Z) :
  0 <= solved →
  (solved < 100 → newDifficulty solved = 1) ∧
  (100 <= solved < 1000 → newDifficulty solved = 2) ∧
  (1000 <= solved → newDifficulty solved = 3) ∧
  (∀ later, solved <= later → newDifficulty solved <= newDifficulty later).
Proof.
  intros _. unfold newDifficulty.
  destruct (Z.leb_spec 1000 solved) as [H3|H3],
           (Z.leb_spec 100 solved) as [H2|H2];
    (repeat split; try lia); intros later Hl;
    destruct (Z.leb_spec 1000 later), (Z.leb_spec 100 later); lia.
Qed.

Lemma C1_difficulty_thresholds_monotone_witness :
  newDifficulty 99 = 1 ∧ newDifficulty 100 = 2 ∧ newDifficulty 1000 = 3
  ∧ newDifficulty 100 <= newDifficulty 1000.
Proof.
  pose proof (C1_difficulty_thresholds_monotone 99 ltac:(lia)) as (H1 & _).
  pose proof (C1_difficulty_thresholds_monotone 100 ltac:(lia)) as (_ & H2 & _ & Hm).
  pose proof (C1_difficulty_thresholds_monotone 1000 ltac:(lia)) as (_ & _ & H3 & _).
  exact (conj (H1 ltac:(lia)) (conj (H2 ltac:(lia))
           (conj (H3 ltac:(lia)) (Hm 1000 ltac:(lia))))).
Defined.

End Difficulty.

(** ** Realtime handlers: what is emitted *)

Section Emissions.

Lemma new_emissions_app s l :
  drop (length (emitted s)) (emitted s ++ l) = l.
Proof. by rewrite drop_app_length. Qed.

Lemma stats_update_child_emitted w k f s :
  emitted (stats_update_child w k f s) = emitted s.
Proof. unfold stats_update_child. by destruct (rejects w k). Qed.

Lemma stats_update_child_sockets w k f s :
  sockets (stats_update_child w k f s) = sockets s.
Proof. unfold stats_update_child. by destruct (rejects w k). Qed.

Lemma stats_update_child_counters w k f s :
  counters (stats_update_child w k f s) = counters s.
Proof. unfold stats_update_child. by destruct (rejects w k). Qed.

Lemma on_connection_emits s :
  new_emissions s (on_connection s)
  = [(sockets s, stats_update (activeUsers s + 1) (activatedEnigmas s) (solvedEnigmas s))].
Proof.
  unfold new_emissions, on_connection, emit_stats, io_emit. cbn.
  apply drop_app_length.
Qed.

Lemma on_disconnect_emits s :
  new_emissions s (on_disconnect s)
  = [(sockets s, stats_update (Z.max 0 (activeUsers s - 1)) (activatedEnigmas s)
                   (solvedEnigmas s))].
Proof.
  unfold new_emissions, on_disconnect, emit_stats, io_emit. cbn.
  apply drop_app_length.
Qed.

Lemma on_enigma_activated_emits w s :
  new_emissions s (on_enigma_activated w s)
  = [(sockets s, stats_update (activeUsers s) (activatedEnigmas s + 1) (solvedEnigmas s))].
Proof.
  unfold new_emissions, on_enigma_activated.
  rewrite stats_update_child_emitted.
  unfold emit_stats, io_emit. cbn. apply drop_app_length.
Qed.

(** The events of one [enigma_solved]: the snapshot, then the difficulty
    level whenever that level is above 1. *)
Lemma on_enigma_solved_emits w s :
  new_emissions s (on_enigma_solved w s)
  = (sockets s, stats_update (activeUsers s) (activatedEnigmas s) (solvedEnigmas s + 1))
    :: (if 1 <? newDifficulty (solvedEnigmas s + 1)
        then [(sockets s, difficulty_change (newDifficulty (solvedEnigmas s + 1)))]
        else []).
Proof.
  unfold new_emissions, on_enigma_solved, stats_update_child, emit_stats, io_emit.
  cbn. destruct (rejects w 0%nat); cbn;
    destruct (1 <? newDifficulty (solvedEnigmas s + 1)); cbn;
    rewrite <- ?app_assoc; apply drop_app_length.
Qed.

Lemma on_enigma_solved_counters w s :
  counters (on_enigma_solved w s)
  = (activeUsers s, activatedEnigmas s, solvedEnigmas s + 1).
Proof.
  unfold on_enigma_solved. cbv zeta.
  match goal with |- context [if ?b then _ else _] => destruct b end;
    unfold io_emit, counters; cbn;
    unfold stats_update_child; by destruct (rejects w 0%nat).
Qed.

Lemma counters_inv s a b c :
  counters s = (a, b, c) →
  activeUsers s = a ∧ activatedEnigmas s = b ∧ solvedEnigmas s = c.
Proof. unfold counters. intros [= -> -> ->]. done. Qed.

Lemma on_enigma_activated_counters w s :
  counters (on_enigma_activated w s)
  = (activeUsers s, activatedEnigmas s + 1, solvedEnigmas s).
Proof.
  unfold on_enigma_activated. cbv zeta.
  by rewrite stats_update_child_counters.
Qed.

Lemma on_enigma_activated_sockets w s :
  sockets (on_enigma_activated w s) = sockets s.
Proof.
  unfold on_enigma_activated. cbv zeta.
  by rewrite stats_update_child_sockets.
Qed.

Lemma on_enigma_solved_solved w s :
  solvedEnigmas (on_enigma_solved w s) = solvedEnigmas s + 1.
Proof.
  pose proof (on_enigma_solved_counters w s) as H.
  unfold counters in H. congruence.
Qed.

Lemma on_enigma_solved_sockets w s :
  sockets (on_enigma_solved w s) = sockets s.
Proof.
  unfold on_enigma_solved. cbv zeta.
  match goal with |- context [if ?b then _ else _] => destruct b end;
    unfold io_emit; cbn; by rewrite stats_update_child_sockets.
Qed.

End Emissions.

(** ** C2: when the difficulty notification is sent *)

Section DifficultyNotification.

Lemma notifies_difficulty_iff w s :
  notifies_difficulty s (on_enigma_solved w s) ↔ 100 <= solvedEnigmas s + 1.
Proof.
  unfold notifies_difficulty. rewrite on_enigma_solved_emits.
  rewrite <- newDifficulty_gt_1.
  destruct (Z.ltb_spec 1 (newDifficulty (solvedEnigmas s + 1))) as [Hlt|Hge].
  - split; [done|]. intros _. eexists _, _. apply elem_of_cons. right.
    apply elem_of_cons. by left.
  - split; [|lia]. intros (to & lvl & Hin).
    apply elem_of_cons in Hin as [Heq|Hin]; [discriminate|].
    by apply elem_of_nil in Hin.
Qed.

(** A solve that takes the count from 100 to 101 leaves the tier at 2 and
    still sends [difficulty_change]: the notification does not follow
    tier changes. *)
Lemma C2_notified_without_tier_change :
  ¬ notification_iff_tier_changed Samples.quiet (Samples.one_socket 100).
Proof.
  unfold notification_iff_tier_changed. intros [Hchanged _].
  apply Hchanged; [|reflexivity].
  apply notifies_difficulty_iff. cbn. lia.
Qed.

(** C2 (amended).  One [enigma_solved] event adds one to the solved count
    and broadcasts [difficulty_change], with the tier of the new count,
    exactly when that tier is above 1, that is when the new count is at
    least 100.  So every solve that changes the tier is notified, the
    solve from 99 to 100 is notified with tier 2, and no notification is
    sent while the new count stays below 100.  What the event emits is
    the snapshot followed by at most that one notification, each to every
    connected socket; no [difficulty_change] carries another level or
    other recipients. *)
Theorem C2_difficulty_notified_when_tier_above_one (w : World) (s : State) :
  let s' := on_enigma_solved w s in
  solvedEnigmas s' = solvedEnigmas s + 1 ∧
  (notifies_difficulty s s' ↔ 1 < newDifficulty (solvedEnigmas s')) ∧
  (notifies_difficulty s s' ↔ 100 <= solvedEnigmas s') ∧
  (tier_changed s s' →
     (sockets s, difficulty_change (newDifficulty (solvedEnigmas s')))
       ∈ new_emissions s s') ∧
  (solvedEnigmas s = 99 →
     new_emissions s s'
     = [(sockets s, stats_update (activeUsers s) (activatedEnigmas s) 100);
        (sockets s, difficulty_change 2)]) ∧
  (solvedEnigmas s' < 100 → ¬ notifies_difficulty s s') ∧
  new_emissions s s'
  = (sockets s, stats_update (activeUsers s) (activatedEnigmas s) (solvedEnigmas s'))
    :: (if 1 <? newDifficulty (solvedEnigmas s')
        then [(sockets s, difficulty_change (newDifficulty (solvedEnigmas s')))]
        else []) ∧
  (∀ to lvl, (to, difficulty_change lvl) ∈ new_emissions s s' →
             to = sockets s' ∧ lvl = newDifficulty (solvedEnigmas s')).
Proof.
  cbv zeta. rewrite on_enigma_solved_solved, on_enigma_solved_sockets, newDifficulty_gt_1.
  pose proof (notifies_difficulty_iff w s) as Hiff.
  pose proof (on_enigma_solved_emits w s) as Hemits.
  split_and!; try done.
  - unfold tier_changed. rewrite on_enigma_solved_solved, Hemits.
    intros Hne.
    assert (1 < newDifficulty (solvedEnigmas s + 1)) as Hgt.
    { pose proof (newDifficulty_range (solvedEnigmas s)).
      pose proof (newDifficulty_step (solvedEnigmas s)). lia. }
    apply Z.ltb_lt in Hgt. rewrite Hgt.
    apply elem_of_cons. right. apply elem_of_cons. by left.
  - intros H99. rewrite Hemits, H99. reflexivity.
  - intros Hlt Hn. apply Hiff in Hn. lia.
  - intros to lvl. rewrite Hemits.
    intros Hin. apply elem_of_cons in Hin as [[=]|Hin].
    destruct (1 <? newDifficulty (solvedEnigmas s + 1));
      [|by apply elem_of_nil in Hin].
    by apply list_elem_of_singleton in Hin as [= -> ->].
Qed.

Lemma C2_difficulty_notified_when_tier_above_one_witness :
  new_emissions (Samples.one_socket 99)
    (on_enigma_solved Samples.quiet (Samples.one_socket 99))
  = [(["s1"], stats_update 1 0 100); (["s1"], difficulty_change 2)].
Proof.
  pose proof (C2_difficulty_notified_when_tier_above_one
                Samples.quiet (Samples.one_socket 99)) as H.
  cbv zeta in H. destruct H as (_ & _ & _ & _ & H99 & _).
  exact (H99 eq_refl).
Defined.

End DifficultyNotification.

(** ** C3: the HTTP handlers *)

Section HttpHandlers.

(** Runs a handler symbolically: every Firebase operation either rejects
    or is applied. *)
Ltac run_handler :=
  unfold activate_enigma, solve_enigma, try_catch, bind, firebase, ret,
    user_once, user_update, stats_transaction, stats_once;
  repeat (case_match; simplify_eq/=; try done).

Lemma gated_cases handler req w s :
  (checkVpn req w = Ok Next ∧ gated handler req w s = handler req w s)
  ∨ (∃ o, gated handler req w s = (Ok o, s)).
Proof.
  unfold gated, checkVpn.
  destruct (checkVpn_try req w) as [[|status body]|e]; eauto.
Qed.

Lemma activate_enigma_silent req w s :
  emitted (snd (activate_enigma req w s)) = emitted s
  ∧ counters (snd (activate_enigma req w s)) = counters s.
Proof. run_handler. Qed.

Lemma solve_enigma_silent req w s :
  emitted (snd (solve_enigma req w s)) = emitted s
  ∧ counters (snd (solve_enigma req w s)) = counters s.
Proof. run_handler. Qed.

Lemma post_activate_enigma_silent req w s :
  emitted (snd (post_activate_enigma req w s)) = emitted s
  ∧ counters (snd (post_activate_enigma req w s)) = counters s.
Proof.
  unfold post_activate_enigma.
  destruct (gated_cases activate_enigma req w s) as [[_ ->]|[o ->]];
    [apply activate_enigma_silent|done].
Qed.

Lemma post_solve_enigma_silent req w s :
  emitted (snd (post_solve_enigma req w s)) = emitted s
  ∧ counters (snd (post_solve_enigma req w s)) = counters s.
Proof.
  unfold post_solve_enigma.
  destruct (gated_cases solve_enigma req w s) as [[_ ->]|[o ->]];
    [apply solve_enigma_silent|done].
Qed.

(** An admitted solve of a registered user, with Firebase answering,
    adds one to the persisted solved count and reports the tier of that
    count. *)
Lemma solve_enigma_registered req w s u :
  users s !! userId req = Some u →
  (∀ k, rejects w k = false) →
  ∃ s',
    solve_enigma req w s
    = (Ok (Respond 200
             (JO [("success", JV (VBool true));
                  ("newDifficulty",
                   JV (VNum (newDifficulty
                               (or0 (st_solvedEnigmas (or_zero_stats (stats s))) + 1))))])),
       s')
    ∧ stats s' = Some (bump_solved (stats s)).
Proof.
  intros Hu Hw.
  unfold solve_enigma, try_catch, bind, firebase, ret, user_once, user_update,
    stats_transaction, stats_once.
  rewrite !Hw, Hu. cbn. eauto.
Qed.

(** With one socket connected, an admitted solve of a registered user
    changes the persisted counters and nothing is emitted. *)
Lemma C3_http_solve_is_not_broadcast :
  ¬ http_solve_broadcasts (Samples.plain_request "203.0.113.5" "u1" "1")
      Samples.quiet (Samples.one_socket 5).
Proof.
  unfold http_solve_broadcasts. cbv zeta. intros H.
  destruct H as (to & a & b & c & Hin).
  - vm_compute. discriminate.
  - pose proof (post_solve_enigma_silent
                  (Samples.plain_request "203.0.113.5" "u1" "1")
                  Samples.quiet (Samples.one_socket 5)) as [Hsilent _].
    unfold new_emissions in Hin.
    rewrite Hsilent in Hin. by apply elem_of_nil in Hin.
Qed.

(** C3 (amended).  Every event the socket layer hands to a handler
    (connection, disconnect, [enigma_activated], [enigma_solved]) is
    followed at once by a [stats_update] that carries the new in-memory
    counters and goes to every connected socket; an event that reaches no
    handler leaves the state as it was.  The handlers of
    [POST /api/activate-enigma] and [POST /api/solve-enigma] emit nothing
    and leave the in-memory counters alone. *)
Theorem C3_socket_mutations_are_broadcast (w : World) (ev : Incoming) (s : State) :
  let s' := socket_step w ev s in
  (s' = s ∨
   ∃ rest,
     new_emissions s s'
     = (sockets s',
        stats_update (activeUsers s') (activatedEnigmas s') (solvedEnigmas s'))
       :: rest)
  ∧ (∀ req w',
       emitted (snd (post_activate_enigma req w' s)) = emitted s
       ∧ counters (snd (post_activate_enigma req w' s)) = counters s)
  ∧ (∀ req w',
       emitted (snd (post_solve_enigma req w' s)) = emitted s
       ∧ counters (snd (post_solve_enigma req w' s)) = counters s).
Proof.
  cbv zeta. split_and!.
  - destruct ev as [id|id|id|id]; cbn [socket_step];
      destruct (connected id s); auto; right.
    + exists []. unfold new_emissions, on_connection, emit_stats, io_emit. cbn.
      apply drop_app_length.
    + exists []. unfold new_emissions, on_disconnect, emit_stats, io_emit. cbn.
      apply drop_app_length.
    + exists []. rewrite on_enigma_activated_emits, on_enigma_activated_sockets.
      by destruct (counters_inv _ _ _ _ (on_enigma_activated_counters w s))
        as (-> & -> & ->).
    + eexists. rewrite on_enigma_solved_emits, on_enigma_solved_sockets.
      by destruct (counters_inv _ _ _ _ (on_enigma_solved_counters w s))
        as (-> & -> & ->).
  - intros req w'. apply post_activate_enigma_silent.
  - intros req w'. apply post_solve_enigma_silent.
Qed.

(** X28.  A solve request whose [userId] is a single database key absent
    from the user store changes nothing, neither the in-memory counters
    nor the persisted ones; when the gate lets the request through and the
    user lookup answers, the response is 404 not-found. *)
Theorem solve_unknown_key_not_found (req : Request) (w : World) (s : State) :
  single_key (userId req) = true →
  users s !! userId req = None →
  snd (post_solve_enigma req w s) = s
  ∧ (checkVpn req w = Ok Next →
     rejects w 0%nat = false →
     fst (post_solve_enigma req w s)
     = Ok (Respond 404 (error_body "Usuário não encontrado"))).
Proof.
  intros _ Hnone.
  assert (snd (solve_enigma req w s) = s ∧
          (rejects w 0%nat = false →
           fst (solve_enigma req w s)
           = Ok (Respond 404 (error_body "Usuário não encontrado")))) as [Hs Hr].
  { unfold solve_enigma, try_catch, bind, firebase, ret, user_once.
    destruct (rejects w 0%nat); [done|]. cbn. by rewrite Hnone. }
  unfold post_solve_enigma.
  destruct (gated_cases solve_enigma req w s) as [[Hgate ->]|[o Ho]].
  - auto.
  - rewrite Ho. split; [done|]. intros Hnext.
    unfold gated in Ho. rewrite Hnext in Ho. rewrite Ho in Hr. auto.
Qed.

Lemma solve_unknown_key_not_found_witness :
  post_solve_enigma (Samples.plain_request "203.0.113.5" "ghost" "1")
    Samples.quiet (Samples.one_socket 5)
  = (Ok (Respond 404 (error_body "Usuário não encontrado")), Samples.one_socket 5).
Proof.
  destruct (solve_unknown_key_not_found
              (Samples.plain_request "203.0.113.5" "ghost" "1")
              Samples.quiet (Samples.one_socket 5)) as [Hs Hr];
    [vm_compute; reflexivity..|].
  rewrite (surjective_pairing (post_solve_enigma _ _ _)).
  rewrite Hs, Hr; reflexivity.
Defined.

End HttpHandlers.

(** ** C7: session churn *)

Section Sessions.

Lemma run_sessions_cons op ops s :
  run_sessions (op :: ops) s = run_sessions ops (session_op op s).
Proof. reflexivity. Qed.

Lemma activeUsers_register s :
  activeUsers (session_op RegisterSession s) = activeUsers s + 1.
Proof. reflexivity. Qed.

Lemma activeUsers_end s :
  activeUsers (session_op EndSession s) = Z.max 0 (activeUsers s - 1).
Proof. reflexivity. Qed.

Lemma run_sessions_nonneg ops : ∀ s,
  0 <= activeUsers s → 0 <= activeUsers (run_sessions ops s).
Proof.
  induction ops as [|op ops IH]; intros s Hs; [done|].
  rewrite run_sessions_cons. apply IH.
  destruct op; [rewrite activeUsers_register | rewrite activeUsers_end]; lia.
Qed.

Lemma run_sessions_lower_bound ops : ∀ s,
  activeUsers s + registrations ops - endings ops
  <= activeUsers (run_sessions ops s).
Proof.
  induction ops as [|op ops IH]; intros s; [cbn; lia|].
  rewrite run_sessions_cons. specialize (IH (session_op op s)).
  destruct op; cbn [registrations endings];
    [rewrite activeUsers_register in IH | rewrite activeUsers_end in IH]; lia.
Qed.

Lemma run_sessions_exact ops : ∀ s,
  no_end_at_zero ops s = true →
  activeUsers (run_sessions ops s)
  = activeUsers s + registrations ops - endings ops.
Proof.
  induction ops as [|op ops IH]; intros s Hok; [cbn; lia|].
  rewrite run_sessions_cons. cbn [no_end_at_zero] in Hok.
  apply andb_true_iff in Hok as [Hop Hok]. rewrite (IH _ Hok).
  destruct op; cbn [registrations endings].
  - rewrite activeUsers_register. lia.
  - apply Z.ltb_lt in Hop. rewrite activeUsers_end. lia.
Qed.

(** After connect, disconnect, a second disconnect and a new connect one
    user is active, while registrations minus endings clamped at 0 is 0. *)
Lemma C7_formula_fails_after_double_disconnect :
  ¬ active_is_clamped_difference Samples.double_disconnect.
Proof. unfold active_is_clamped_difference. vm_compute. discriminate. Qed.

(** C7 (amended).  From a non-negative start, no sequence of
    [registerSession] and [endSession] makes [activeUsers] negative;
    [endSession] at 0 leaves 0; [activeUsers] is never below
    registrations minus endings clamped at 0, and it equals that
    difference, counted from the start value, whenever no [endSession] of
    the sequence arrives at 0. *)
Theorem C7_active_users_floored (ops : list SessionOp) (s : State) :
  0 <= activeUsers s →
  0 <= activeUsers (run_sessions ops s)
  ∧ (activeUsers s = 0 → activeUsers (session_op EndSession s) = 0)
  ∧ Z.max 0 (activeUsers s + registrations ops - endings ops)
    <= activeUsers (run_sessions ops s)
  ∧ (no_end_at_zero ops s = true →
     activeUsers (run_sessions ops s)
     = Z.max 0 (activeUsers s + registrations ops - endings ops)).
Proof.
  intros Hs.
  pose proof (run_sessions_nonneg ops s Hs) as Hnn.
  pose proof (run_sessions_lower_bound ops s) as Hlb.
  split_and!; [done| |lia|].
  - intros H0. rewrite activeUsers_end. lia.
  - intros Hok. rewrite (run_sessions_exact ops s Hok) in *. lia.
Qed.

Lemma C7_active_users_floored_witness :
  activeUsers (run_sessions [RegisterSession; RegisterSession; EndSession] initial)
  = Z.max 0 (0 + 2 - 1).
Proof.
  destruct (C7_active_users_floored
              [RegisterSession; RegisterSession; EndSession] initial)
    as (_ & _ & _ & Heq).
  - vm_compute. discriminate.
  - apply Heq. reflexivity.
Defined.

(** On the socket layer itself an ending never arrives at 0: a
    [disconnect] handler only runs for a socket whose [connection] handler
    ran before, so from the initial state [activeUsers] is the number of
    connected sockets. *)
Lemma length_filter_ne (id : string) (l : list string) :
  NoDup l → id ∈ l → S (length (filter (λ x, x ≠ id) l)) = length l.
Proof.
  induction l as [|x l IH]; intros Hnd Hin; [by apply elem_of_nil in Hin|].
  apply NoDup_cons in Hnd as [Hx Hnd].
  destruct (decide (x = id)) as [->|Hne].
  - rewrite filter_cons_False by (intros Hid; by apply Hid). cbn. f_equal.
    clear IH Hin. induction l as [|y l IH]; [done|].
    apply not_elem_of_cons in Hx as [Hy Hx]. apply NoDup_cons in Hnd as [_ Hnd].
    rewrite filter_cons_True by done. cbn. f_equal. by apply IH.
  - rewrite filter_cons_True by done. cbn. f_equal. apply IH; [done|].
    apply elem_of_cons in Hin as [->|Hin]; done.
Qed.

Lemma socket_step_counts_sockets w ev s :
  counts_sockets s → counts_sockets (socket_step w ev s).
Proof.
  intros [Hnd Hn]. unfold counts_sockets.
  destruct ev as [id|id|id|id]; cbn [socket_step]; unfold connected;
    case_bool_decide as Hid; try done.
  - cbn. split.
    + apply NoDup_app. split_and!; [done| |apply NoDup_singleton].
      intros x Hx ->%list_elem_of_singleton. done.
    + rewrite length_app. cbn. lia.
  - cbn. split; [by apply NoDup_filter|].
    pose proof (length_filter_ne id (sockets s) Hnd Hid). lia.
  - by rewrite on_enigma_activated_sockets,
      (proj1 (counters_inv _ _ _ _ (on_enigma_activated_counters w s))).
  - by rewrite on_enigma_solved_sockets,
      (proj1 (counters_inv _ _ _ _ (on_enigma_solved_counters w s))).
Qed.

Lemma run_events_counts_sockets evs : ∀ s,
  counts_sockets s → counts_sockets (run_events evs s).
Proof.
  induction evs as [|[w ev] evs IH]; intros s Hs; [done|].
  apply IH. by apply socket_step_counts_sockets.
Qed.

Lemma socket_layer_counts_sockets evs :
  activeUsers (run_events evs initial)
  = Z.of_nat (length (sockets (run_events evs initial))).
Proof.
  apply (run_events_counts_sockets evs initial). split; [constructor|done].
Qed.

End Sessions.

(** ** The reputation cache *)

Section Cache.

Lemma has_real_key_set_cache c svc :
  has_real_key (set_cache c svc) = has_real_key svc.
Proof. reflexivity. Qed.

Lemma lookup_provider_calls svc c ip env :
  has_real_key svc = true → calls_of (lookup_provider svc c ip env) = [ip].
Proof.
  intros Hk. unfold lookup_provider. rewrite Hk.
  by destruct (axios_get env) as [|[d|]].
Qed.

Lemma lookup_provider_simulated svc c ip env :
  has_real_key svc = false →
  lookup_provider svc c ip env
  = (simulated_result (random env),
     <[ip := {| timestamp := now_store env;
                data := simulated_result (random env) |}]> c, []).
Proof. intros Hk. unfold lookup_provider. by rewrite Hk. Qed.

(** The [catch] clause: the permissive verdict, the cache as it was. *)
Lemma lookup_provider_failed svc c ip env :
  has_real_key svc = true → failed (axios_get env) = true →
  lookup_provider svc c ip env = (allow_verdict, c, [ip]).
Proof.
  intros Hk Hf. unfold lookup_provider. rewrite Hk.
  by destruct (axios_get env) as [|[d|]].
Qed.

(** Without a failure the verdict returned is the one stored, stamped
    with the time of the store. *)
Lemma lookup_provider_stores svc c ip env :
  ¬ (has_real_key svc = true ∧ failed (axios_get env) = true) →
  ∃ v, lookup_provider svc c ip env
       = (v, <[ip := {| timestamp := now_store env; data := v |}]> c,
          if has_real_key svc then [ip] else []).
Proof.
  intros Hok. unfold lookup_provider.
  destruct (has_real_key svc); [|eauto].
  destruct (axios_get env) as [|[d|]]; [|eauto|]; exfalso; by apply Hok.
Qed.

Lemma checkIp_disabled svc ip env :
  enabled svc = false → checkIp svc ip env = (allow_verdict, svc, []).
Proof. intros He. unfold checkIp. by rewrite He. Qed.

Lemma checkIp_hit svc ip env e :
  enabled svc = true →
  cache svc !! ip = Some e →
  now_check env - timestamp e < cacheExpiration svc →
  checkIp svc ip env = (data e, svc, []).
Proof.
  intros He Hc Hfresh. unfold checkIp. rewrite He, Hc. cbn.
  apply Z.ltb_lt in Hfresh. by rewrite Hfresh.
Qed.

(** On a miss or an expired entry the provider block runs on a cache
    that has no entry for the address. *)
Lemma checkIp_miss svc ip env :
  enabled svc = true →
  (∀ e, cache svc !! ip = Some e →
        cacheExpiration svc <= now_check env - timestamp e) →
  ∃ c, c !! ip = None ∧
       checkIp svc ip env
       = (verdict_of (lookup_provider svc c ip env),
          set_cache ((lookup_provider svc c ip env).1.2) svc,
          calls_of (lookup_provider svc c ip env)).
Proof.
  intros He Hold. unfold checkIp. rewrite He. cbn.
  destruct (cache svc !! ip) as [e|] eqn:Hc.
  - specialize (Hold e eq_refl). apply Z.ltb_ge in Hold. rewrite Hold.
    exists (delete ip (cache svc)). split; [apply lookup_delete_eq|].
    by destruct (lookup_provider _ _ _ _) as [[v c] calls].
  - exists (cache svc). split; [done|].
    by destruct (lookup_provider _ _ _ _) as [[v c] calls].
Qed.

Lemma checkIp_calls_inv svc ip env x :
  x ∈ calls_of (checkIp svc ip env) →
  enabled svc = true ∧ has_real_key svc = true
  ∧ ∀ e, cache svc !! ip = Some e →
         cacheExpiration svc <= now_check env - timestamp e.
Proof.
  unfold checkIp. destruct (enabled svc); cbn; [|by intros ?%elem_of_nil].
  assert (∀ c, x ∈ calls_of (lookup_provider svc c ip env) → has_real_key svc = true)
    as Hkey.
  { intros c. unfold lookup_provider.
    destruct (has_real_key svc); [done|by intros ?%elem_of_nil]. }
  destruct (cache svc !! ip) as [e|].
  - destruct (Z.ltb_spec (now_check env - timestamp e) (cacheExpiration svc));
      cbn; [by intros ?%elem_of_nil|].
    destruct (lookup_provider _ _ _ _) as [[v c] calls] eqn:Hl. intros Hx.
    split_and!; [done| |by intros ? [= <-]].
    apply (Hkey (delete ip (cache svc))). by rewrite Hl.
  - destruct (lookup_provider _ _ _ _) as [[v c] calls] eqn:Hl. intros Hx.
    split_and!; [done| |done].
    apply (Hkey (cache svc)). by rewrite Hl.
Qed.

(** The consistency of cache and switch holds at construction and is
    kept by every lookup and by [clearCache]. *)
Lemma constructor_consistent k e : consistent (constructor k e).
Proof. by intros _. Qed.

Lemma checkIp_consistent svc ip env :
  consistent svc → consistent (service_after (checkIp svc ip env)).
Proof.
  intros Hc. unfold checkIp. destruct (enabled svc) eqn:He; cbn; [|done].
  destruct (cache svc !! ip) as [e|]; [case_match|];
    try destruct (lookup_provider _ _ _ _) as [[v c] calls];
    unfold consistent; cbn; congruence.
Qed.

Lemma clearCache_consistent svc : consistent (clearCache svc).
Proof. by intros _. Qed.

End Cache.

(** ** C5 and C6: failures are not cached, fresh entries are served *)

Section Lookup.

Lemma calls_of_two_lookups_eq svc ip env1 env2 :
  calls_of_two_lookups svc ip env1 env2
  = calls_of (checkIp svc ip env1)
    ++ calls_of (checkIp (service_after (checkIp svc ip env1)) ip env2).
Proof.
  unfold calls_of_two_lookups, calls_of, service_after.
  destruct (checkIp svc ip env1) as [[v1 svc1] calls1]. cbn.
  by destruct (checkIp svc1 ip env2) as [[v2 svc2] calls2].
Qed.

Lemma lookup_provider_calls_length svc c ip env :
  (length (calls_of (lookup_provider svc c ip env)) <= 1)%nat.
Proof.
  unfold lookup_provider.
  destruct (has_real_key svc); [destruct (axios_get env) as [|[d|]]|]; cbn; lia.
Qed.

Lemma checkIp_calls_length svc ip env :
  (length (calls_of (checkIp svc ip env)) <= 1)%nat.
Proof.
  unfold checkIp. destruct (enabled svc); cbn; [|lia].
  destruct (cache svc !! ip) as [e|]; [case_match; [cbn; lia|]|].
  - pose proof (lookup_provider_calls_length svc (delete ip (cache svc)) ip env).
    by destruct (lookup_provider _ _ _ _) as [[v c] calls].
  - pose proof (lookup_provider_calls_length svc (cache svc) ip env).
    by destruct (lookup_provider _ _ _ _) as [[v c] calls].
Qed.

(** A lookup that runs the provider block without a failure leaves an
    entry that a second lookup within the lifetime is served from. *)
Lemma second_lookup_after_store svc ip env1 env2 :
  enabled svc = true →
  (∀ e, cache svc !! ip = Some e →
        cacheExpiration svc <= now_check env1 - timestamp e) →
  now_check env1 <= now_store env1 →
  now_check env2 - now_check env1 < cacheExpiration svc →
  ¬ (calls_of (checkIp svc ip env1) = [ip] ∧ failed (axios_get env1) = true) →
  (length (calls_of (checkIp svc ip env1)
           ++ calls_of (checkIp (service_after (checkIp svc ip env1)) ip env2))
   <= 1)%nat.
Proof.
  intros Hen Hold Hmono Hclose Hok.
  destruct (checkIp_miss svc ip env1 Hen Hold) as (c & Hc & Heq).
  rewrite Heq in Hok |- *.
  destruct (lookup_provider_stores svc c ip env1) as (v & Hl).
  { intros [Hk Hf]. apply Hok. split; [|done].
    unfold calls_of at 1. cbn. by apply lookup_provider_calls. }
  rewrite Hl. unfold service_after, calls_of. cbn.
  rewrite (checkIp_hit _ ip env2 {| timestamp := now_store env1; data := v |}).
  - cbn. rewrite length_app. cbn. destruct (has_real_key svc); cbn; lia.
  - done.
  - cbn. apply lookup_insert_eq.
  - cbn. lia.
Qed.

(** A response that resolves with a body is stored whatever the body
    holds: only a rejected request or a missing body counts as a failure. *)
Lemma checkIp_stores_resolved_body svc ip env d :
  calls_of (checkIp svc ip env) = [ip] →
  axios_get env = Resolved (Some d) →
  verdict_of (checkIp svc ip env) = result_of_response d
  ∧ cache (service_after (checkIp svc ip env)) !! ip
    = Some {| timestamp := now_store env; data := result_of_response d |}.
Proof.
  intros Hcalls Hd.
  destruct (checkIp_calls_inv svc ip env ip) as (He & Hk & Hold).
  { rewrite Hcalls. by left. }
  destruct (checkIp_miss svc ip env He Hold) as (c & Hc & ->).
  unfold lookup_provider. rewrite Hk, Hd.
  unfold verdict_of, service_after. cbn.
  split; [done|]. apply lookup_insert_eq.
Qed.

(** A quota message resolves with a body that holds none of the verdict
    signals; it is stored like a verdict, against "no cache entry is
    stored when the provider call fails". *)
Lemma C5_quota_message_is_cached :
  ¬ failure_is_not_cached Samples.production "203.0.113.5"
      (Samples.env_at 0 (Resolved (Some quota_message))).
Proof.
  unfold failure_is_not_cached. intros H.
  assert (cache (service_after
                   (checkIp Samples.production "203.0.113.5"
                      (Samples.env_at 0 (Resolved (Some quota_message)))))
            !! "203.0.113.5" = None) as Hnone
    by (apply H; vm_compute; reflexivity).
  vm_compute in Hnone. discriminate.
Qed.

(** C5 (amended).  When a lookup asks the provider and the call throws
    (the request rejects, or the response has no body), the lookup returns
    the permissive verdict (not suspicious) instead of raising, the cache
    holds no entry for the address afterwards, and the next lookup of that
    address asks the provider again.  A response that resolves with a body
    is not a failure, whatever the body holds: the verdict read from it is
    returned and stored. *)
Theorem C5_provider_failure_fails_open (svc : Service) (ip : string) (env : CheckEnv) :
  calls_of (checkIp svc ip env) = [ip] →
  (failed (axios_get env) = true →
   verdict_of (checkIp svc ip env) = allow_verdict
   ∧ truthy (isVpn (verdict_of (checkIp svc ip env))) = false
   ∧ cache (service_after (checkIp svc ip env)) !! ip = None
   ∧ ∀ env', calls_of (checkIp (service_after (checkIp svc ip env)) ip env') = [ip])
  ∧ (∀ d, axios_get env = Resolved (Some d) →
          verdict_of (checkIp svc ip env) = result_of_response d
          ∧ cache (service_after (checkIp svc ip env)) !! ip
            = Some {| timestamp := now_store env; data := result_of_response d |}).
Proof.
  intros Hcalls. split; [|intros d Hd; by apply checkIp_stores_resolved_body].
  intros Hfail.
  destruct (checkIp_calls_inv svc ip env ip) as (He & Hk & Hold).
  { rewrite Hcalls. by left. }
  destruct (checkIp_miss svc ip env He Hold) as (c & Hc & ->).
  rewrite (lookup_provider_failed svc c ip env Hk Hfail).
  unfold verdict_of, service_after. cbn.
  split_and!; try done.
  intros env'.
  destruct (checkIp_miss (set_cache c svc) ip env') as (c' & _ & ->).
  - done.
  - cbn. by rewrite Hc.
  - unfold calls_of at 1. cbn. by apply lookup_provider_calls.
Qed.

Lemma C5_provider_failure_fails_open_witness :
  verdict_of (checkIp Samples.production "203.0.113.5" (Samples.env_at 0 Rejected))
  = allow_verdict
  ∧ cache (service_after
             (checkIp Samples.production "203.0.113.5" (Samples.env_at 0 Rejected)))
      !! "203.0.113.5" = None.
Proof.
  destruct (C5_provider_failure_fails_open Samples.production "203.0.113.5"
              (Samples.env_at 0 Rejected)) as [Hfailed _].
  - vm_compute. reflexivity.
  - destruct Hfailed as (Hv & _ & Hc & _); [reflexivity|].
    exact (conj Hv Hc).
Defined.

(** When the provider rejects the first request, a second lookup one
    second later asks again: two requests within the cache lifetime. *)
Lemma C6_failed_lookup_is_retried :
  ¬ two_lookups_one_call Samples.production "203.0.113.5"
      (Samples.env_at 0 Rejected) (Samples.env_at 1000 Rejected).
Proof.
  unfold two_lookups_one_call. intros H.
  assert (calls_of_two_lookups Samples.production "203.0.113.5"
            (Samples.env_at 0 Rejected) (Samples.env_at 1000 Rejected)
          = ["203.0.113.5"; "203.0.113.5"]) as Hcalls
    by (vm_compute; reflexivity).
  rewrite Hcalls in H. cbn in H.
  assert (within_ttl Samples.production (Samples.env_at 0 Rejected)
            (Samples.env_at 1000 Rejected)) as Hin
    by (unfold within_ttl; cbn; lia).
  specialize (H Hin). lia.
Qed.

(** C6 (amended).  In every state the service can reach, a lookup whose
    cached entry is younger than the cache lifetime returns the cached
    verdict, leaves the service as it is and asks the provider nothing.
    Two successive lookups of one address, the second starting less than
    a cache lifetime after the first, ask the provider at most once,
    provided the provider call of the first lookup did not fail. *)
Theorem C6_fresh_entry_served_from_cache
    (svc : Service) (ip : string) (env1 env2 : CheckEnv) :
  consistent svc →
  (∀ e, cache svc !! ip = Some e →
        now_check env1 < timestamp e + cacheExpiration svc →
        checkIp svc ip env1 = (data e, svc, []))
  ∧ (within_ttl svc env1 env2 →
     ¬ (calls_of (checkIp svc ip env1) = [ip] ∧ failed (axios_get env1) = true) →
     (length (calls_of_two_lookups svc ip env1 env2) <= 1)%nat).
Proof.
  intros Hcons. split.
  - intros e He Hfresh. apply checkIp_hit; [|done|lia].
    destruct (enabled svc) eqn:Hen; [done|].
    rewrite (Hcons Hen) in He. by rewrite lookup_empty in He.
  - intros [Hmono Hclose] Hok. rewrite calls_of_two_lookups_eq.
    destruct (enabled svc) eqn:Hen.
    2:{ rewrite !checkIp_disabled by done. cbn. lia. }
    destruct (cache svc !! ip) as [e|] eqn:Hc.
    + destruct (Z.lt_ge_cases (now_check env1 - timestamp e) (cacheExpiration svc))
        as [Hfresh|Hstale].
      * rewrite (checkIp_hit svc ip env1 e) by done.
        unfold service_after, calls_of at 1. cbn.
        apply checkIp_calls_length.
      * apply (second_lookup_after_store svc ip env1 env2); try done.
        intros e' He'. by simplify_eq.
    + apply (second_lookup_after_store svc ip env1 env2); try done.
      intros e' He'. by simplify_eq.
Qed.

Lemma C6_fresh_entry_served_from_cache_witness :
  checkIp Samples.warmed "203.0.113.5" (Samples.env_at 1000 Rejected)
  = (result_of_response Samples.tor_exit, Samples.warmed, [])
  ∧ (length (calls_of_two_lookups Samples.production "203.0.113.5"
               (Samples.env_at 0 (Resolved (Some Samples.tor_exit)))
               (Samples.env_at 1000 Rejected)) <= 1)%nat.
Proof.
  split.
  - destruct (C6_fresh_entry_served_from_cache Samples.warmed "203.0.113.5"
                (Samples.env_at 1000 Rejected) (Samples.env_at 2000 Rejected))
      as [Hhit _].
    + intros Hoff. vm_compute in Hoff. discriminate.
    + apply (Hhit {| timestamp := 40; data := result_of_response Samples.tor_exit |});
        vm_compute; reflexivity.
  - destruct (C6_fresh_entry_served_from_cache Samples.production "203.0.113.5"
                (Samples.env_at 0 (Resolved (Some Samples.tor_exit)))
                (Samples.env_at 1000 Rejected))
      as [_ Htwo].
    + apply constructor_consistent.
    + apply Htwo.
      * split; vm_compute; [discriminate|reflexivity].
      * intros [_ Hfailed]. discriminate Hfailed.
Defined.

End Lookup.

(** ** C4, C9 and C10: the gates *)

Section Gates.

Lemma pretty_N_10 : pretty 10%N = "10".
Proof. vm_compute. reflexivity. Qed.

Lemma pretty_N_192 : pretty 192%N = "192".
Proof. vm_compute. reflexivity. Qed.

Lemma pretty_N_168 : pretty 168%N = "168".
Proof. vm_compute. reflexivity. Qed.

Lemma dotted_loopback a :
  (o1 a = 127 ∧ o2 a = 0 ∧ o3 a = 0 ∧ o4 a = 1)%N → dotted a = "127.0.0.1".
Proof.
  destruct a as [a b c d]. cbn. intros (-> & -> & -> & ->).
  vm_compute. reflexivity.
Qed.

(** The text of a private or loopback address passes the local test, and
    the prefix removal leaves it alone. *)
Lemma private_or_loopback_is_local a :
  private_or_loopback a = true →
  is_local (dotted a) = true ∧ replace_ffff (dotted a) = dotted a.
Proof.
  unfold private_or_loopback. intros H.
  apply orb_true_iff in H as [H|H]; [apply orb_true_iff in H as [H|H]|].
  - rewrite !andb_true_iff, !N.eqb_eq in H.
    rewrite (dotted_loopback a) by tauto. by vm_compute.
  - apply N.eqb_eq in H. unfold dotted. rewrite H, pretty_N_10.
    generalize (pretty (o2 a) +:+ "." +:+ pretty (o3 a) +:+ "." +:+ pretty (o4 a)).
    intros rest. split; vm_compute; reflexivity.
  - rewrite andb_true_iff, !N.eqb_eq in H. destruct H as [H1 H2].
    unfold dotted. rewrite H1, H2, pretty_N_192, pretty_N_168.
    generalize (pretty (o3 a) +:+ "." +:+ pretty (o4 a)).
    intros rest. split; vm_compute; reflexivity.
Qed.

Lemma replace_ffff_mapped x : replace_ffff ("::ffff:" +:+ x) = x.
Proof. reflexivity. Qed.

Lemma blocked_body_fields v :
  field "error" (blocked_body v) = Some (JV (VStr "Acesso bloqueado"))
  ∧ is_Some (field "message" (blocked_body v))
  ∧ field "details" (blocked_body v)
    = Some (JO [("proxy", JV (proxy v)); ("vpn", JV (vpn v)); ("tor", JV (tor v))])
  ∧ rejection_shape (blocked_body v).
Proof.
  unfold rejection_shape. split_and!; try done.
  eexists. split_and!; [reflexivity|done..].
Qed.

(** Whatever the middleware answers itself is a 403 built from the
    verdict it left in [req.vpnCheck], and that verdict is suspicious. *)
Lemma middleware_rejection_inv svc req env r status body :
  middleware svc req env = Ok r →
  outcome r = Respond status body →
  status = 403
  ∧ ∃ v, vpnCheck r = Some v ∧ truthy (isVpn v) = true ∧ body = blocked_body v.
Proof.
  unfold middleware, middleware_try.
  destruct (client_ip req) as [ip|e]; [|by intros [= <-]].
  destruct (clean_ip ip) as [cleanIp|e]; [|by intros [= <-]].
  destruct (is_local cleanIp); [by intros [= <-]|].
  destruct (checkIp svc cleanIp env) as [[v svc'] calls].
  destruct (truthy (isVpn v)) eqn:Hv; intros [= <-]; cbn; [|done].
  intros [= <- <-]. eauto.
Qed.

(** The gate of the HTTP endpoints answers 403 to a request from the
    loopback address when its draw falls below 5%. *)
Lemma C4_inline_gate_rejects_loopback :
  ¬ endpoint_admits_local Samples.loopback
      (Samples.plain_request "127.0.0.1" "u1" "1") Samples.unlucky.
Proof.
  unfold endpoint_admits_local. intros H.
  assert (checkVpn (Samples.plain_request "127.0.0.1" "u1" "1") Samples.unlucky
          = Ok Next) as Hnext.
  { apply H; vm_compute; reflexivity. }
  vm_compute in Hnext. discriminate.
Qed.

(** C4 (amended).  The middleware of [VpnDetectionService] lets every
    request through whose client address, after removal of a leading
    [::ffff:], is 127.0.0.1 or lies in 10.0.0.0/8 or 192.168.0.0/16: it
    calls [next()], leaves the service and its cache as they are, records
    no verdict and asks the provider nothing. *)
Theorem C4_middleware_admits_local_addresses
    (svc : Service) (req : Request) (env : CheckEnv) (a : IPv4) (mapped : bool) :
  private_or_loopback a = true →
  client_ip req = Ok (Some ((if mapped then "::ffff:" else "") +:+ dotted a)) →
  middleware svc req env
  = Ok {| outcome := Next; service := svc; vpnCheck := None; provider_calls := [] |}.
Proof.
  intros Hlocal Hip.
  destruct (private_or_loopback_is_local a Hlocal) as [Hl Hr].
  unfold middleware, middleware_try. rewrite Hip. cbn [clean_ip].
  assert (replace_ffff ((if mapped then "::ffff:" else "") +:+ dotted a) = dotted a)
    as -> by (destruct mapped; [apply replace_ffff_mapped|exact Hr]).
  by rewrite Hl.
Qed.

Lemma C4_middleware_admits_local_addresses_witness :
  middleware Samples.production
    (Samples.plain_request "::ffff:192.168.1.20" "u1" "1")
    (Samples.env_at 0 Rejected)
  = Ok {| outcome := Next; service := Samples.production; vpnCheck := None;
          provider_calls := [] |}.
Proof.
  apply (C4_middleware_admits_local_addresses Samples.production
           (Samples.plain_request "::ffff:192.168.1.20" "u1" "1")
           (Samples.env_at 0 Rejected) Samples.lan_host true);
    vm_compute; reflexivity.
Defined.

(** The 403 of the gate of the HTTP endpoints carries [error] alone. *)
Lemma C9_inline_gate_rejection_has_no_details :
  ¬ endpoint_rejection_detailed
      (Samples.plain_request "203.0.113.5" "u1" "1") Samples.unlucky.
Proof.
  unfold endpoint_rejection_detailed. intros H.
  destruct (H 403 (JO [("error", JV (VStr "VPN ou Tor detectado. Acesso bloqueado."))]))
    as (_ & _ & [m Hm] & _).
  - vm_compute. reflexivity.
  - vm_compute in Hm. discriminate.
Qed.

(** C9 (amended).  When the verdict the middleware of
    [VpnDetectionService] obtains for a client address is suspicious, the
    middleware answers 403 with a body holding [error], [message] and
    [details], the latter with the [proxy], [vpn] and [tor] values of that
    verdict. *)
Theorem C9_suspicious_verdict_rejected_with_details
    (svc : Service) (req : Request) (env : CheckEnv) (ip : string) :
  let verdict := verdict_of (checkIp svc (replace_ffff ip) env) in
  client_ip req = Ok (Some ip) →
  is_local (replace_ffff ip) = false →
  truthy (isVpn verdict) = true →
  ∃ r body,
    middleware svc req env = Ok r
    ∧ outcome r = Respond 403 body
    ∧ vpnCheck r = Some verdict
    ∧ field "error" body = Some (JV (VStr "Acesso bloqueado"))
    ∧ is_Some (field "message" body)
    ∧ field "details" body
      = Some (JO [("proxy", JV (proxy verdict)); ("vpn", JV (vpn verdict));
                  ("tor", JV (tor verdict))])
    ∧ rejection_shape body.
Proof.
  cbv zeta. intros Hip Hlocal Hv.
  unfold middleware, middleware_try. rewrite Hip. cbn [clean_ip]. rewrite Hlocal.
  destruct (checkIp svc (replace_ffff ip) env) as [[v svc'] calls].
  unfold verdict_of in *. cbn in Hv |- *. rewrite Hv.
  destruct (blocked_body_fields v) as (He & Hm & Hd & Hs).
  eexists _, _. split_and!; [reflexivity|reflexivity|done..].
Qed.

Lemma C9_suspicious_verdict_rejected_with_details_witness :
  ∃ r, middleware Samples.production
         (Samples.plain_request "203.0.113.5" "u1" "1")
         (Samples.env_at 0 (Resolved (Some Samples.tor_exit))) = Ok r
       ∧ ∃ body, outcome r = Respond 403 body
                 ∧ field "details" body
                   = Some (JO [("proxy", JV (VBool true)); ("vpn", JV (VBool false));
                               ("tor", JV (VBool true))]).
Proof.
  destruct (C9_suspicious_verdict_rejected_with_details Samples.production
              (Samples.plain_request "203.0.113.5" "u1" "1")
              (Samples.env_at 0 (Resolved (Some Samples.tor_exit))) "203.0.113.5")
    as (r & body & Hr & Ho & _ & _ & _ & Hd & _); [vm_compute; reflexivity..|].
  exists r. split; [exact Hr|]. exists body. split; [exact Ho|exact Hd].
Defined.

(** C10.  An exception raised inside either gate is caught and the
    request is admitted: when the [try] block of the middleware throws,
    the middleware calls [next()] and leaves the service alone, and a
    request without a usable address makes that block throw; when the
    [try] block of [checkVpn] throws, [checkVpn] calls [next()].  Neither
    gate lets an exception escape. *)
Theorem C10_gate_errors_admit
    (svc : Service) (req : Request) (env : CheckEnv) (w : World) :
  (∀ e, middleware_try svc req env = Throw e →
        middleware svc req env
        = Ok {| outcome := Next; service := svc; vpnCheck := None;
                provider_calls := [] |})
  ∧ (client_ip req = Ok None → ∃ e, middleware_try svc req env = Throw e)
  ∧ (∀ e, checkVpn_try req w = Throw e → checkVpn req w = Ok Next)
  ∧ (∃ r, middleware svc req env = Ok r)
  ∧ (∃ o, checkVpn req w = Ok o).
Proof.
  split_and!.
  - intros e He. unfold middleware. by rewrite He.
  - intros Hip. unfold middleware_try. rewrite Hip. cbn. eauto.
  - intros e He. unfold checkVpn. by rewrite He.
  - unfold middleware. destruct (middleware_try svc req env); eauto.
  - unfold checkVpn. destruct (checkVpn_try req w); eauto.
Qed.

Lemma C10_gate_errors_admit_witness :
  middleware Samples.production Samples.addressless (Samples.env_at 0 Rejected)
  = Ok {| outcome := Next; service := Samples.production; vpnCheck := None;
          provider_calls := [] |}.
Proof.
  destruct (C10_gate_errors_admit Samples.production Samples.addressless
              (Samples.env_at 0 Rejected) Samples.quiet)
    as (Hcatch & Hthrows & _).
  destruct (Hthrows eq_refl) as [e He].
  exact (Hcatch e He).
Defined.

End Gates.

(** * Further properties of the code *)

(** ** The HTTP handlers, one by one *)

Section Handlers.

Lemma gated_admitted handler req w s :
  checkVpn req w = Ok Next → gated handler req w s = handler req w s.
Proof. intros H. unfold gated. by rewrite H. Qed.

Lemma persisted_bump_activated s x :
  persisted (set_stats (Some (bump_activated (stats s))) x)
  = (let '(a, b, c) := persisted s in (a, b + 1, c)).
Proof. unfold persisted, bump_activated. cbn. by destruct (stats s) as [[[a|] [b|] [c|]]|]. Qed.

Lemma persisted_bump_solved s x :
  persisted (set_stats (Some (bump_solved (stats s))) x)
  = (let '(a, b, c) := persisted s in (a, b, c + 1)).
Proof. unfold persisted, bump_solved. cbn. by destruct (stats s) as [[[a|] [b|] [c|]]|]. Qed.

Lemma persisted_bump_active s x :
  persisted (set_stats (Some (bump_active (stats s))) x)
  = (let '(a, b, c) := persisted s in (a + 1, b, c)).
Proof. unfold persisted, bump_active. cbn. by destruct (stats s) as [[[a|] [b|] [c|]]|]. Qed.

(** The state an activation leaves when every Firebase operation
    answers. *)
Lemma activate_enigma_ok req w s u :
  users s !! userId req = Some u →
  rejects w 0%nat = false → rejects w 1%nat = false → rejects w 2%nat = false →
  activate_enigma req w s
  = (Ok (Respond 200 (JO [("success", JV (VBool true))])),
     set_stats (Some (bump_activated (stats s)))
       (set_users (<[userId req :=
                      {[ "enigmaActivated" := VBool true;
                         "activationTime" := VNum (server_time w) ]} ∪ u]> (users s)) s)).
Proof.
  intros Hu H0 H1 H2.
  unfold activate_enigma, try_catch, bind, firebase, ret, user_once, user_update,
    stats_transaction.
  rewrite H0, H1, H2, Hu. cbn. by rewrite Hu.
Qed.

Lemma solve_enigma_ok req w s u :
  users s !! userId req = Some u →
  rejects w 0%nat = false → rejects w 1%nat = false → rejects w 2%nat = false →
  solve_enigma req w s
  = (if rejects w 3%nat
     then Ok (Respond 500 (error_body "Erro ao resolver enigma"))
     else Ok (Respond 200
                (JO [("success", JV (VBool true));
                     ("newDifficulty",
                      JV (VNum (newDifficulty (persisted (solved_state req w u s)).2)))])),
     solved_state req w u s).
Proof.
  intros Hu H0 H1 H2.
  unfold solve_enigma, try_catch, bind, firebase, ret, user_once, user_update,
    stats_transaction, stats_once, solved_state.
  rewrite H0, H1, H2, Hu. cbn. rewrite Hu. cbn.
  destruct (rejects w 3%nat); [done|].
  by destruct (stats s) as [[[a|] [b|] [c|]]|].
Qed.

(** Reading a node after two of its children were written. *)
Lemma lookup_two_children (k1 k2 : string) (v1 v2 : JsVal) (u : gmap string JsVal) :
  k1 ≠ k2 →
  ({[ k1 := v1; k2 := v2 ]} ∪ u) !! k1 = Some v1
  ∧ ({[ k1 := v1; k2 := v2 ]} ∪ u) !! k2 = Some v2
  ∧ ∀ k, k ≠ k1 → k ≠ k2 → ({[ k1 := v1; k2 := v2 ]} ∪ u) !! k = u !! k.
Proof.
  intros Hne. split_and!.
  - apply lookup_union_Some_l, lookup_insert_eq.
  - apply lookup_union_Some_l. rewrite lookup_insert_ne by done.
    apply lookup_singleton_eq.
  - intros k H1 H2. apply lookup_union_r.
    rewrite lookup_insert_ne by done. by apply lookup_singleton_ne.
Qed.

Lemma checkVpn_cases req w :
  checkVpn req w = Ok Next
  ∨ checkVpn req w
    = Ok (Respond 403 (JO [("error", JV (VStr "VPN ou Tor detectado. Acesso bloqueado."))])).
Proof.
  unfold checkVpn, checkVpn_try.
  repeat case_match; simplify_eq; auto.
Qed.

Lemma gated_answers handler req w s :
  answers (handler req w s) → answers (gated handler req w s).
Proof.
  intros Hh. unfold gated.
  destruct (checkVpn_cases req w) as [-> | ->]; [done|].
  eexists _, _. split; [reflexivity|]. auto.
Qed.

(** X1.  Every route ends with a response: none calls [next()], none lets an
    exception escape, and the status is 200, 403, 404 or 500. *)
Theorem routes_always_answer
    (first : gmap string (gmap string JsVal) → option (gmap string JsVal))
    (reg : Registration) (req : Request) (w : World) (s : State) :
  answers (get_api_stats req w s)
  ∧ answers (post_register_user first reg req w s)
  ∧ answers (post_activate_enigma req w s)
  ∧ answers (post_solve_enigma req w s).
Proof.
  split_and!; apply gated_answers; unfold answers;
    unfold get_stats, register_user, activate_enigma, solve_enigma, try_catch, bind,
      firebase, ret, user_once, user_update, user_set, users_by_fingerprint,
      stats_transaction, stats_once;
    repeat (case_match; simplify_eq/=); eexists _, _; (split; [reflexivity|]); auto.
Qed.

(** X2.  An activation whose [userId] is a single database key absent from
    the user store changes nothing; when the gate lets the request through and the lookup
    answers, the response is 404. *)
Theorem activate_unknown_identity_not_found (req : Request) (w : World) (s : State) :
  single_key (userId req) = true →
  users s !! userId req = None →
  (post_activate_enigma req w s).2 = s
  ∧ (checkVpn req w = Ok Next →
     rejects w 0%nat = false →
     (post_activate_enigma req w s).1
     = Ok (Respond 404 (error_body "Usuário não encontrado"))).
Proof.
  intros _ Hnone. unfold post_activate_enigma, gated.
  destruct (checkVpn_cases req w) as [-> | ->]; [|done].
  unfold activate_enigma, try_catch, bind, firebase, ret, user_once.
  destruct (rejects w 0%nat); cbn; rewrite ?Hnone; done.
Qed.

Lemma activate_unknown_identity_not_found_witness :
  post_activate_enigma (Samples.plain_request "203.0.113.5" "ghost" "1")
    Samples.quiet (Samples.one_socket 5)
  = (Ok (Respond 404 (error_body "Usuário não encontrado")), Samples.one_socket 5).
Proof.
  destruct (activate_unknown_identity_not_found
              (Samples.plain_request "203.0.113.5" "ghost" "1")
              Samples.quiet (Samples.one_socket 5)) as [Hs Hr];
    [vm_compute; reflexivity..|].
  rewrite (surjective_pairing (post_activate_enigma _ _ _)).
  rewrite Hs, Hr; reflexivity.
Defined.

(** X3.  An admitted activation of a registered user, with Firebase
    answering, adds exactly one to the persisted activation count and
    leaves the two other persisted counts alone; it marks the user, keeps
    the user's other children and every other user; it touches neither the
    in-memory counters nor the sockets. *)
Theorem activate_registered_user_counts_once
    (req : Request) (w : World) (s : State) (u : gmap string JsVal) (a b c : Z) :
  users s !! userId req = Some u →
  persisted s = (a, b, c) →
  checkVpn req w = Ok Next →
  (∀ k, rejects w k = false) →
  let r := post_activate_enigma req w s in
  r.1 = Ok (Respond 200 (JO [("success", JV (VBool true))]))
  ∧ persisted r.2 = (a, b + 1, c)
  ∧ (∃ u', users r.2 !! userId req = Some u'
           ∧ u' !! "enigmaActivated" = Some (VBool true)
           ∧ u' !! "activationTime" = Some (VNum (server_time w))
           ∧ ∀ k, k ≠ "enigmaActivated" → k ≠ "activationTime" → u' !! k = u !! k)
  ∧ (∀ uid, uid ≠ userId req → users r.2 !! uid = users s !! uid)
  ∧ counters r.2 = counters s
  ∧ emitted r.2 = emitted s.
Proof.
  intros Hu Hp Hgate Hok. cbv zeta.
  unfold post_activate_enigma. rewrite (gated_admitted _ _ _ _ Hgate).
  rewrite (activate_enigma_ok req w s u) by done. cbn.
  split_and!; try done.
  - by rewrite persisted_bump_activated, Hp.
  - eexists. split; [apply lookup_insert_eq|].
    by apply lookup_two_children.
  - intros uid Hne. by rewrite lookup_insert_ne.
Qed.

Lemma activate_registered_user_counts_once_witness :
  persisted (post_activate_enigma (Samples.plain_request "203.0.113.5" "u1" "1")
               Samples.quiet (Samples.one_socket 5)).2
  = (0, 0 + 1, 0).
Proof.
  destruct (activate_registered_user_counts_once
              (Samples.plain_request "203.0.113.5" "u1" "1")
              Samples.quiet (Samples.one_socket 5) {[ "id" := VStr "u1" ]} 0 0 0)
    as (_ & Hp & _); [vm_compute; reflexivity..|exact Hp].
Defined.

Lemma solve_keys_differ l : "enigmaSolved_" +:+ l ≠ "solutionTime_" +:+ l.
Proof. discriminate. Qed.

Lemma post_solve_enigma_effect
    (req : Request) (w : World) (s : State) (u : gmap string JsVal) (a b c : Z) :
  users s !! userId req = Some u →
  persisted s = (a, b, c) →
  checkVpn req w = Ok Next →
  (∀ k, rejects w k = false) →
  let r := post_solve_enigma req w s in
  r.1 = Ok (Respond 200 (JO [("success", JV (VBool true));
                             ("newDifficulty", JV (VNum (newDifficulty (c + 1))))]))
  ∧ persisted r.2 = (a, b, c + 1)
  ∧ (∃ u', users r.2 !! userId req = Some u'
           ∧ u' !! ("enigmaSolved_" +:+ level req) = Some (VBool true)
           ∧ u' !! ("solutionTime_" +:+ level req) = Some (VNum (server_time w))
           ∧ ∀ k, k ≠ "enigmaSolved_" +:+ level req →
                  k ≠ "solutionTime_" +:+ level req → u' !! k = u !! k)
  ∧ (∀ uid, uid ≠ userId req → users r.2 !! uid = users s !! uid)
  ∧ counters r.2 = counters s
  ∧ emitted r.2 = emitted s.
Proof.
  intros Hu Hp Hgate Hok. cbv zeta.
  unfold post_solve_enigma. rewrite (gated_admitted _ _ _ _ Hgate).
  rewrite (solve_enigma_ok req w s u) by done. rewrite Hok.
  assert (persisted (solved_state req w u s) = (a, b, c + 1)) as Hp'
    by (unfold solved_state; by rewrite persisted_bump_solved, Hp).
  rewrite Hp'. cbn.
  split_and!; try done.
  - eexists. split; [apply lookup_insert_eq|].
    apply lookup_two_children, solve_keys_differ.
  - intros uid Hne. by rewrite lookup_insert_ne.
Qed.

(** X4.  An admitted solve of a registered user, for a level whose two
    keys are single keys the database accepts, with Firebase answering,
    adds exactly one to the persisted solved count, reports the tier of
    the new persisted count, marks the level on the user and keeps the
    user's other children and every other user; the in-memory counters
    stay as they are and nothing is emitted. *)
Theorem solve_registered_user_counts_once
    (req : Request) (w : World) (s : State) (u : gmap string JsVal) (a b c : Z) :
  writable_level (userId req) (level req) = true →
  users s !! userId req = Some u →
  persisted s = (a, b, c) →
  checkVpn req w = Ok Next →
  (∀ k, rejects w k = false) →
  let r := post_solve_enigma req w s in
  r.1 = Ok (Respond 200 (JO [("success", JV (VBool true));
                             ("newDifficulty", JV (VNum (newDifficulty (c + 1))))]))
  ∧ persisted r.2 = (a, b, c + 1)
  ∧ (∃ u', users r.2 !! userId req = Some u'
           ∧ u' !! ("enigmaSolved_" +:+ level req) = Some (VBool true)
           ∧ u' !! ("solutionTime_" +:+ level req) = Some (VNum (server_time w))
           ∧ ∀ k, k ≠ "enigmaSolved_" +:+ level req →
                  k ≠ "solutionTime_" +:+ level req → u' !! k = u !! k)
  ∧ (∀ uid, uid ≠ userId req → users r.2 !! uid = users s !! uid)
  ∧ counters r.2 = counters s
  ∧ emitted r.2 = emitted s.
Proof. intros _. apply post_solve_enigma_effect. Qed.

Lemma solve_registered_user_counts_once_witness :
  (post_solve_enigma (Samples.plain_request "203.0.113.5" "u1" "1")
     Samples.quiet (Samples.one_socket 5)).1
  = Ok (Respond 200 (JO [("success", JV (VBool true));
                         ("newDifficulty", JV (VNum (newDifficulty (0 + 1))))])).
Proof.
  destruct (solve_registered_user_counts_once
              (Samples.plain_request "203.0.113.5" "u1" "1")
              Samples.quiet (Samples.one_socket 5) {[ "id" := VStr "u1" ]} 0 0 0)
    as (Hr & _); [vm_compute; reflexivity..|exact Hr].
Defined.

(** X5.  A 500 from the solve route does not mean that nothing was written:
    when the counter update rejects, the level is already marked on the
    user; when the last read rejects, the level is marked and the
    persisted solved count already went up by one. *)
Theorem solve_failure_after_writes
    (req : Request) (w : World) (s : State) (u : gmap string JsVal) (a b c : Z) :
  users s !! userId req = Some u →
  persisted s = (a, b, c) →
  checkVpn req w = Ok Next →
  rejects w 0%nat = false →
  rejects w 1%nat = false →
  let r := post_solve_enigma req w s in
  let marked s' :=
    ∃ u', users s' !! userId req = Some u'
          ∧ u' !! ("enigmaSolved_" +:+ level req) = Some (VBool true) in
  (rejects w 2%nat = true →
     r.1 = Ok (Respond 500 (error_body "Erro ao resolver enigma"))
     ∧ marked r.2 ∧ persisted r.2 = (a, b, c))
  ∧ (rejects w 2%nat = false → rejects w 3%nat = true →
     r.1 = Ok (Respond 500 (error_body "Erro ao resolver enigma"))
     ∧ marked r.2 ∧ persisted r.2 = (a, b, c + 1)).
Proof.
  intros Hu Hp Hgate H0 H1. cbv zeta.
  unfold post_solve_enigma. rewrite (gated_admitted _ _ _ _ Hgate). split.
  - intros H2.
    unfold solve_enigma, try_catch, bind, firebase, ret, user_once, user_update.
    rewrite H0, H1, H2, Hu. cbn. rewrite Hu. cbn.
    split_and!; [done| |done].
    eexists. split; [apply lookup_insert_eq|].
    apply lookup_two_children, solve_keys_differ.
  - intros H2 H3. rewrite (solve_enigma_ok req w s u) by done. rewrite H3. cbn.
    split_and!; [done| |].
    + eexists. split; [apply lookup_insert_eq|].
      apply lookup_two_children, solve_keys_differ.
    + unfold solved_state. by rewrite persisted_bump_solved, Hp.
Qed.

Lemma solve_failure_after_writes_witness :
  persisted (post_solve_enigma (Samples.plain_request "203.0.113.5" "u1" "1")
               Samples.last_read_fails (Samples.one_socket 5)).2
  = (0, 0, 0 + 1).
Proof.
  destruct (solve_failure_after_writes
              (Samples.plain_request "203.0.113.5" "u1" "1")
              Samples.last_read_fails (Samples.one_socket 5)
              {[ "id" := VStr "u1" ]} 0 0 0)
    as (_ & Hlate); [vm_compute; reflexivity..|].
  destruct Hlate as (_ & _ & Hp); [reflexivity..|exact Hp].
Defined.

(** X6.  The solve route keeps no record that stops a repeat: the same user
    solving the same level twice is counted twice. *)
Theorem solve_twice_counts_twice
    (req : Request) (w1 w2 : World) (s : State) (u : gmap string JsVal) (a b c : Z) :
  users s !! userId req = Some u →
  persisted s = (a, b, c) →
  checkVpn req w1 = Ok Next → checkVpn req w2 = Ok Next →
  (∀ k, rejects w1 k = false) → (∀ k, rejects w2 k = false) →
  let r1 := post_solve_enigma req w1 s in
  let r2 := post_solve_enigma req w2 r1.2 in
  persisted r2.2 = (a, b, c + 2)
  ∧ r2.1 = Ok (Respond 200 (JO [("success", JV (VBool true));
                                ("newDifficulty", JV (VNum (newDifficulty (c + 2))))])).
Proof.
  intros Hu Hp Hg1 Hg2 Hok1 Hok2. cbv zeta.
  destruct (post_solve_enigma_effect req w1 s u a b c)
    as (_ & Hp1 & (u1 & Hu1 & _) & _); [done..|].
  destruct (post_solve_enigma_effect req w2
              (post_solve_enigma req w1 s).2 u1 a b (c + 1))
    as (Hr2 & Hp2 & _); [done..|].
  replace (c + 2) with (c + 1 + 1) by lia. done.
Qed.

Lemma solve_twice_counts_twice_witness :
  persisted
    (post_solve_enigma (Samples.plain_request "203.0.113.5" "u1" "1") Samples.quiet
       (post_solve_enigma (Samples.plain_request "203.0.113.5" "u1" "1") Samples.quiet
          (Samples.one_socket 5)).2).2
  = (0, 0, 0 + 2).
Proof.
  destruct (solve_twice_counts_twice
              (Samples.plain_request "203.0.113.5" "u1" "1")
              Samples.quiet Samples.quiet (Samples.one_socket 5)
              {[ "id" := VStr "u1" ]} 0 0 0)
    as (Hp & _); [vm_compute; reflexivity..|exact Hp].
Defined.

Lemma field_solved_stats_json st n :
  st_solvedEnigmas st = Some n →
  field "solvedEnigmas" (stats_json st) = Some (JV (VNum n)).
Proof.
  intros Hn. unfold stats_json, field.
  destruct (st_activeUsers st), (st_activatedEnigmas st); cbn; by rewrite Hn.
Qed.

(** X7.  [GET /api/stats] never changes the state.  Once the [stats] node
    exists, an admitted request is answered from that node alone, whatever
    the in-memory counters are; only when the node is absent are the
    in-memory counters reported. *)
Theorem get_stats_reads_the_persisted_node (req : Request) (w : World) (s : State) :
  (get_api_stats req w s).2 = s
  ∧ (checkVpn req w = Ok Next → rejects w 0%nat = false →
     (∀ st, stats s = Some st →
            (get_api_stats req w s).1 = Ok (Respond 200 (stats_json st)))
     ∧ (stats s = None →
        (get_api_stats req w s).1 = Ok (Respond 200 (counters_json s)))).
Proof.
  unfold get_api_stats, gated.
  destruct (checkVpn_cases req w) as [-> | ->].
  - unfold get_stats, try_catch, bind, firebase, ret, stats_once.
    destruct (rejects w 0%nat); cbn; [done|].
    split; [done|]. intros _ _. split; [intros st ->|intros ->]; done.
  - split; [done|]. intros [=].
Qed.

(** X8.  What the socket handler of [enigma_solved] persists is what
    [GET /api/stats] reports next: the in-memory solved count. *)
Theorem get_stats_after_socket_solve
    (req : Request) (w1 w : World) (s : State) :
  rejects w1 0%nat = false →
  checkVpn req w = Ok Next →
  rejects w 0%nat = false →
  let s1 := on_enigma_solved w1 s in
  ∃ body,
    (get_api_stats req w s1).1 = Ok (Respond 200 body)
    ∧ field "solvedEnigmas" body = Some (JV (VNum (solvedEnigmas s + 1))).
Proof.
  intros Hw1 Hgate Hw. cbv zeta.
  assert (∃ st, stats (on_enigma_solved w1 s) = Some st
                ∧ st_solvedEnigmas st = Some (solvedEnigmas s + 1)) as (st & Hst & Hn).
  { unfold on_enigma_solved, stats_update_child. cbv zeta. rewrite Hw1.
    match goal with |- context [if ?b then _ else _] => destruct b end;
      cbn; eauto. }
  exists (stats_json st). split; [|by apply field_solved_stats_json].
  unfold get_api_stats. rewrite (gated_admitted _ _ _ _ Hgate).
  unfold get_stats, try_catch, bind, firebase, ret, stats_once.
  rewrite Hw. cbn. by rewrite Hst.
Qed.

Lemma get_stats_after_socket_solve_witness :
  ∃ body,
    (get_api_stats (Samples.plain_request "203.0.113.5" "u1" "1") Samples.quiet
       (on_enigma_solved Samples.quiet (Samples.one_socket 5))).1
    = Ok (Respond 200 body)
    ∧ field "solvedEnigmas" body = Some (JV (VNum (5 + 1))).
Proof.
  apply (get_stats_after_socket_solve
           (Samples.plain_request "203.0.113.5" "u1" "1")
           Samples.quiet Samples.quiet (Samples.one_socket 5));
    vm_compute; reflexivity.
Defined.

Lemma unknown_fingerprint_no_match fp s :
  unknown_fingerprint fp s → (users_by_fingerprint fp s).1 = ∅.
Proof.
  intros Hfp. unfold users_by_fingerprint. cbn.
  apply map_empty. intros k. apply map_lookup_filter_None. right.
  intros u Hu. cbn. by apply (Hfp k u).
Qed.

Lemma new_user_children reg w :
  new_user reg w !! "fingerprint" = Some (VStr (deviceFingerprint reg))
  ∧ id_of (new_user reg w) = VStr (uuid reg).
Proof.
  unfold id_of, new_user. split.
  - rewrite lookup_insert_ne by done. apply lookup_insert_eq.
  - by rewrite lookup_insert_eq.
Qed.

Lemma register_user_new first reg req w s :
  unknown_fingerprint (deviceFingerprint reg) s →
  (∀ k, rejects w k = false) →
  register_user first reg req w s
  = (Ok (Respond 200 (JO [("userId", JV (VStr (uuid reg)));
                          ("isNew", JV (VBool true))])),
     set_stats (Some (bump_active (stats s)))
       (set_users (<[uuid reg := new_user reg w]> (users s)) s)).
Proof.
  intros Hfp Hok. apply unknown_fingerprint_no_match in Hfp.
  unfold register_user, try_catch, bind, firebase, ret, user_set, stats_transaction.
  rewrite !Hok.
  destruct (users_by_fingerprint (deviceFingerprint reg) s) as [m s0] eqn:Hq.
  assert (s0 = s) as -> by (unfold users_by_fingerprint in Hq; congruence).
  cbn in Hfp. subst m. by rewrite decide_True.
Qed.

Lemma register_user_known first reg req w s k0 u0 :
  picks_a_value first →
  users s !! k0 = Some u0 →
  u0 !! "fingerprint" = Some (VStr (deviceFingerprint reg)) →
  rejects w 0%nat = false →
  ∃ k u,
    users s !! k = Some u
    ∧ u !! "fingerprint" = Some (VStr (deviceFingerprint reg))
    ∧ register_user first reg req w s
      = (Ok (Respond 200 (JO [("userId", JV (id_of u)); ("isNew", JV (VBool false))])), s).
Proof.
  intros Hfirst Hu0 Hfp0 Hok.
  set (m := (users_by_fingerprint (deviceFingerprint reg) s).1).
  assert (m ≠ ∅) as Hne.
  { intros Hm. apply (map_filter_empty_not_lookup _ _ k0 u0 Hm); done. }
  destruct (Hfirst m Hne) as (k & u & Hpick & Hk).
  apply map_lookup_filter_Some in Hk as [Hk Hfp]. cbn in Hfp.
  exists k, u. split_and!; [done..|].
  unfold register_user, try_catch, bind, firebase, ret. rewrite Hok.
  unfold users_by_fingerprint in *. cbn in *. fold m. fold m in Hpick.
  rewrite decide_False by done. by rewrite Hpick.
Qed.

(** X9.  Registering a fingerprint that no user carries creates the user
    under the fresh identifier, answers with that identifier and
    [isNew = true], and adds one to the persisted count of active users;
    nothing else is persisted, the in-memory counters stay as they are and
    nothing is emitted. *)
Theorem register_new_fingerprint
    (first : gmap string (gmap string JsVal) → option (gmap string JsVal))
    (reg : Registration) (req : Request) (w : World) (s : State) (a b c : Z) :
  unknown_fingerprint (deviceFingerprint reg) s →
  persisted s = (a, b, c) →
  checkVpn req w = Ok Next →
  (∀ k, rejects w k = false) →
  let r := post_register_user first reg req w s in
  r.1 = Ok (Respond 200 (JO [("userId", JV (VStr (uuid reg)));
                             ("isNew", JV (VBool true))]))
  ∧ users r.2 = <[uuid reg := new_user reg w]> (users s)
  ∧ persisted r.2 = (a + 1, b, c)
  ∧ counters r.2 = counters s
  ∧ emitted r.2 = emitted s.
Proof.
  intros Hfp Hp Hgate Hok. cbv zeta.
  unfold post_register_user. rewrite (gated_admitted _ _ _ _ Hgate).
  rewrite (register_user_new first reg req w s Hfp Hok). cbn.
  split_and!; try done. by rewrite persisted_bump_active, Hp.
Qed.

Lemma register_new_fingerprint_witness :
  persisted (post_register_user first_listed
               {| deviceFingerprint := "f00d"; uuid := "u2" |}
               (Samples.plain_request "203.0.113.5" "" "")
               Samples.quiet (Samples.one_socket 5)).2
  = (0 + 1, 0, 0).
Proof.
  destruct (register_new_fingerprint first_listed
              {| deviceFingerprint := "f00d"; uuid := "u2" |}
              (Samples.plain_request "203.0.113.5" "" "")
              Samples.quiet (Samples.one_socket 5) 0 0 0)
    as (_ & _ & Hp & _); [|vm_compute; reflexivity..|exact Hp].
  intros k u Hu. cbn in Hu.
  apply lookup_singleton_Some in Hu as [_ <-]. by vm_compute.
Defined.

(** X10.  Registering a fingerprint that some user carries changes nothing and
    answers [isNew = false] with the [id] child of a user that carries
    the fingerprint. *)
Theorem register_known_fingerprint
    (first : gmap string (gmap string JsVal) → option (gmap string JsVal))
    (reg : Registration) (req : Request) (w : World) (s : State)
    (k0 : string) (u0 : gmap string JsVal) :
  picks_a_value first →
  users s !! k0 = Some u0 →
  u0 !! "fingerprint" = Some (VStr (deviceFingerprint reg)) →
  checkVpn req w = Ok Next →
  rejects w 0%nat = false →
  let r := post_register_user first reg req w s in
  r.2 = s
  ∧ ∃ k u,
      users s !! k = Some u
      ∧ u !! "fingerprint" = Some (VStr (deviceFingerprint reg))
      ∧ r.1 = Ok (Respond 200 (JO [("userId", JV (id_of u));
                                   ("isNew", JV (VBool false))])).
Proof.
  intros Hfirst Hu0 Hfp0 Hgate Hok. cbv zeta.
  unfold post_register_user. rewrite (gated_admitted _ _ _ _ Hgate).
  destruct (register_user_known first reg req w s k0 u0) as (k & u & Hk & Hfp & ->);
    [done..|].
  split; [done|]. by exists k, u.
Qed.

Lemma first_listed_picks : picks_a_value first_listed.
Proof.
  intros m Hm. unfold first_listed.
  destruct (map_to_list m) as [|[k u] l] eqn:Hl.
  - by apply map_to_list_empty_iff in Hl.
  - exists k, u. split; [done|].
    apply elem_of_map_to_list. rewrite Hl. by left.
Qed.

Lemma register_known_fingerprint_witness :
  (post_register_user first_listed
     {| deviceFingerprint := "f00d"; uuid := "u3" |}
     (Samples.plain_request "203.0.113.5" "" "") Samples.quiet
     RouteSamples.registered).2
  = RouteSamples.registered.
Proof.
  destruct (register_known_fingerprint first_listed
              {| deviceFingerprint := "f00d"; uuid := "u3" |}
              (Samples.plain_request "203.0.113.5" "" "") Samples.quiet
              RouteSamples.registered "u2"
              (new_user RouteSamples.device Samples.quiet))
    as [Hs _]; [apply first_listed_picks|vm_compute; reflexivity..|exact Hs].
Defined.

(** X11.  A second registration of the same fingerprint, whatever identifier
    it draws, returns the identifier of the first, reports
    [isNew = false] and changes nothing: the fingerprint is counted
    once. *)
Theorem register_twice_same_identity
    (first : gmap string (gmap string JsVal) → option (gmap string JsVal))
    (fp uuid1 uuid2 : string) (req1 req2 : Request) (w1 w2 : World) (s : State)
    (a b c : Z) :
  picks_a_value first →
  unknown_fingerprint fp s →
  persisted s = (a, b, c) →
  checkVpn req1 w1 = Ok Next → checkVpn req2 w2 = Ok Next →
  (∀ k, rejects w1 k = false) → rejects w2 0%nat = false →
  let r1 := post_register_user first
              {| deviceFingerprint := fp; uuid := uuid1 |} req1 w1 s in
  let r2 := post_register_user first
              {| deviceFingerprint := fp; uuid := uuid2 |} req2 w2 r1.2 in
  r2.1 = Ok (Respond 200 (JO [("userId", JV (VStr uuid1));
                              ("isNew", JV (VBool false))]))
  ∧ r2.2 = r1.2
  ∧ persisted r2.2 = (a + 1, b, c).
Proof.
  intros Hfirst Hfp Hp Hg1 Hg2 Hok1 Hok2. cbv zeta.
  set (reg1 := {| deviceFingerprint := fp; uuid := uuid1 |}).
  set (reg2 := {| deviceFingerprint := fp; uuid := uuid2 |}).
  unfold post_register_user.
  rewrite (gated_admitted _ _ _ _ Hg1), (gated_admitted _ _ _ _ Hg2).
  rewrite (register_user_new first reg1 req1 w1 s Hfp Hok1). cbn [fst snd].
  set (s1 := set_stats _ _).
  assert ((users_by_fingerprint fp s1).1 = {[ uuid1 := new_user reg1 w1 ]}) as Hq.
  { unfold users_by_fingerprint, s1. cbn.
    rewrite map_filter_insert_True by (cbn; apply (new_user_children reg1 w1)).
    apply unknown_fingerprint_no_match in Hfp. cbn in Hfp.
    by rewrite Hfp, insert_empty. }
  destruct (register_user_known first reg2 req2 w2 s1 uuid1 (new_user reg1 w1))
    as (k & u & Hk & Hfpu & ->); [done| | |done|].
  { unfold s1. cbn. apply lookup_insert_eq. }
  { apply (new_user_children reg1 w1). }
  cbn [fst snd]. split_and!; [|done|].
  - assert ((users_by_fingerprint fp s1).1 !! k = Some u) as Hin.
    { unfold users_by_fingerprint. cbn. by apply map_lookup_filter_Some. }
    rewrite Hq in Hin. apply lookup_singleton_Some in Hin as [_ <-].
    by rewrite (proj2 (new_user_children reg1 w1)).
  - unfold s1. by rewrite persisted_bump_active, Hp.
Qed.

Lemma register_twice_same_identity_witness :
  (post_register_user first_listed {| deviceFingerprint := "f00d"; uuid := "u3" |}
     (Samples.plain_request "203.0.113.5" "" "") Samples.quiet
     (post_register_user first_listed {| deviceFingerprint := "f00d"; uuid := "u2" |}
        (Samples.plain_request "203.0.113.5" "" "") Samples.quiet
        (Samples.one_socket 5)).2).1
  = Ok (Respond 200 (JO [("userId", JV (VStr "u2")); ("isNew", JV (VBool false))])).
Proof.
  destruct (register_twice_same_identity first_listed "f00d" "u2" "u3"
              (Samples.plain_request "203.0.113.5" "" "")
              (Samples.plain_request "203.0.113.5" "" "")
              Samples.quiet Samples.quiet (Samples.one_socket 5) 0 0 0)
    as (Hr & _); [apply first_listed_picks| |vm_compute; reflexivity..|exact Hr].
  intros k u Hu. cbn in Hu.
  apply lookup_singleton_Some in Hu as [_ <-]. by vm_compute.
Defined.

End Handlers.

(** ** The realtime handlers over whole runs *)

Section Realtime.

Lemma socket_step_users w ev s : users (socket_step w ev s) = users s.
Proof.
  destruct ev as [id|id|id|id]; cbn [socket_step];
    destruct (connected id s); try done;
    unfold on_enigma_activated, on_enigma_solved, stats_update_child; cbv zeta;
    repeat case_match; done.
Qed.

Lemma socket_step_counters w ev s :
  0 <= activeUsers s →
  0 <= activeUsers (socket_step w ev s)
  ∧ activatedEnigmas s <= activatedEnigmas (socket_step w ev s)
  ∧ solvedEnigmas s <= solvedEnigmas (socket_step w ev s).
Proof.
  intros Ha.
  destruct ev as [id|id|id|id]; cbn [socket_step];
    destruct (connected id s); try (cbn; lia).
  - destruct (counters_inv _ _ _ _ (on_enigma_activated_counters w s))
      as (-> & -> & ->). lia.
  - destruct (counters_inv _ _ _ _ (on_enigma_solved_counters w s))
      as (-> & -> & ->). lia.
Qed.

(** X12.  Over every run of socket events the activation and solved counters
    never go down and [activeUsers] stays non-negative; the user store is
    never read or written, so an [enigma_solved] event is counted whoever
    sends it. *)
Theorem socket_runs_keep_counters_monotone
    (evs : list (World * Incoming)) (s : State) :
  0 <= activeUsers s →
  0 <= activeUsers (run_events evs s)
  ∧ activatedEnigmas s <= activatedEnigmas (run_events evs s)
  ∧ solvedEnigmas s <= solvedEnigmas (run_events evs s)
  ∧ users (run_events evs s) = users s.
Proof.
  revert s. induction evs as [|[w ev] evs IH]; intros s Ha; [done|].
  destruct (socket_step_counters w ev s Ha) as (Ha' & Hb & Hc).
  destruct (IH (socket_step w ev s) Ha') as (? & ? & ? & Hu).
  change (run_events ((w, ev) :: evs) s) with (run_events evs (socket_step w ev s)).
  rewrite Hu, socket_step_users. split_and!; [done|lia|lia|done].
Qed.

Lemma socket_runs_keep_counters_monotone_witness :
  solvedEnigmas (Samples.one_socket 5)
  <= solvedEnigmas
       (run_events [(Samples.quiet, EnigmaSolved "s1"); (Samples.quiet, Disconnect "s1")]
          (Samples.one_socket 5)).
Proof.
  destruct (socket_runs_keep_counters_monotone
              [(Samples.quiet, EnigmaSolved "s1"); (Samples.quiet, Disconnect "s1")]
              (Samples.one_socket 5))
    as (_ & _ & Hc & _); [vm_compute; discriminate|exact Hc].
Defined.

(** X13.  Whenever [activeUsers] is the number of connected sockets, it is
    still so after any run of socket events: on the socket layer every
    disconnect takes back exactly one connect. *)
Theorem socket_runs_count_connected_sockets
    (evs : list (World * Incoming)) (s : State) :
  counts_sockets s →
  activeUsers (run_events evs s) = Z.of_nat (length (sockets (run_events evs s)))
  ∧ NoDup (sockets (run_events evs s)).
Proof.
  intros Hs. destruct (run_events_counts_sockets evs s Hs) as [Hnd Hn]. done.
Qed.

Lemma socket_runs_count_connected_sockets_witness :
  activeUsers
    (run_events [(Samples.quiet, Connect "s1"); (Samples.quiet, Connect "s2");
                 (Samples.quiet, Disconnect "s1"); (Samples.quiet, Disconnect "s1")]
       initial)
  = Z.of_nat
      (length
         (sockets
            (run_events [(Samples.quiet, Connect "s1"); (Samples.quiet, Connect "s2");
                         (Samples.quiet, Disconnect "s1"); (Samples.quiet, Disconnect "s1")]
               initial))).
Proof.
  destruct (socket_runs_count_connected_sockets
              [(Samples.quiet, Connect "s1"); (Samples.quiet, Connect "s2");
               (Samples.quiet, Disconnect "s1"); (Samples.quiet, Disconnect "s1")]
              initial) as [Hn _]; [|exact Hn].
  split; [constructor|reflexivity].
Defined.

Lemma socket_step_emitted w ev s :
  ∃ l, emitted (socket_step w ev s) = emitted s ++ l
       ∧ ∀ to e, (to, e) ∈ l → to = sockets (socket_step w ev s).
Proof.
  destruct ev as [id|id|id|id]; cbn [socket_step];
    destruct (connected id s);
    try (exists []; split; [by rewrite app_nil_r|by intros ?? ?%elem_of_nil]).
  - eexists. split; [reflexivity|]. by intros to e [= -> _]%list_elem_of_singleton.
  - eexists. split; [reflexivity|]. by intros to e [= -> _]%list_elem_of_singleton.
  - exists [(sockets s, stats_update (activeUsers s) (activatedEnigmas s + 1)
                          (solvedEnigmas s))].
    split.
    + unfold on_enigma_activated. cbv zeta. by rewrite stats_update_child_emitted.
    + rewrite on_enigma_activated_sockets.
      by intros to e [= -> _]%list_elem_of_singleton.
  - exists (new_emissions s (on_enigma_solved w s)). split.
    + rewrite on_enigma_solved_emits.
      unfold on_enigma_solved, stats_update_child, emit_stats, io_emit. cbn.
      destruct (rejects w 0%nat); cbn;
        destruct (1 <? newDifficulty (solvedEnigmas s + 1)); cbn;
        by rewrite <- ?app_assoc.
    + rewrite on_enigma_solved_emits, on_enigma_solved_sockets.
      intros to e Hin. apply elem_of_cons in Hin as [[= -> _]|Hin]; [done|].
      destruct (1 <? newDifficulty (solvedEnigmas s + 1));
        [|by apply elem_of_nil in Hin].
      by apply list_elem_of_singleton in Hin as [= -> _].
Qed.

(** X14.  The log of emissions only grows, and everything a socket event
    makes the server emit goes to exactly the sockets connected once the
    event is handled. *)
Theorem emissions_reach_the_connected_sockets (w : World) (ev : Incoming) (s : State) :
  let s' := socket_step w ev s in
  emitted s' = emitted s ++ new_emissions s s'
  ∧ ∀ to e, (to, e) ∈ new_emissions s s' → to = sockets s'.
Proof.
  cbv zeta. destruct (socket_step_emitted w ev s) as (l & Hl & Hto).
  unfold new_emissions. rewrite Hl, drop_app_length. done.
Qed.

(** X15.  What the socket handlers persist is the in-memory count, not an
    increment of the persisted one: after [enigma_activated] or
    [enigma_solved], when the write goes through, the persisted count of
    that kind equals the new in-memory count whatever was persisted
    before, and the two other persisted counts are as before. *)
Theorem socket_writes_overwrite_persisted_counts (w : World) (s : State) (a b c : Z) :
  persisted s = (a, b, c) →
  rejects w 0%nat = false →
  persisted (on_enigma_activated w s) = (a, activatedEnigmas s + 1, c)
  ∧ persisted (on_enigma_solved w s) = (a, b, solvedEnigmas s + 1).
Proof.
  intros Hp Hw. unfold persisted in *.
  unfold on_enigma_activated, on_enigma_solved, stats_update_child. cbv zeta.
  rewrite Hw. split.
  - cbn. destruct (stats s) as [[[a'|] [b'|] [c'|]]|]; cbn in *; congruence.
  - match goal with |- context [if ?x then _ else _] => destruct x end;
      cbn; destruct (stats s) as [[[a'|] [b'|] [c'|]]|]; cbn in *; congruence.
Qed.

Lemma socket_writes_overwrite_persisted_counts_witness :
  persisted (on_enigma_solved Samples.quiet RouteSamples.registered) = (1, 0, 0 + 1).
Proof.
  destruct (socket_writes_overwrite_persisted_counts Samples.quiet
              RouteSamples.registered 1 0 0) as [_ Hs];
    [vm_compute; reflexivity..|exact Hs].
Defined.

(** X16.  The two paths do not agree on who may solve: a solve that the HTTP
    route refuses with 404 for a single key it does not know is still
    counted and
    broadcast when the same client sends [enigma_solved] over its
    socket. *)
Theorem refused_solve_is_counted_over_the_socket
    (req : Request) (w w' : World) (id : string) (s : State) :
  single_key (userId req) = true →
  users s !! userId req = None →
  id ∈ sockets s →
  let s1 := (post_solve_enigma req w s).2 in
  let s2 := socket_step w' (EnigmaSolved id) s1 in
  s1 = s
  ∧ solvedEnigmas s2 = solvedEnigmas s + 1
  ∧ (sockets s, stats_update (activeUsers s) (activatedEnigmas s) (solvedEnigmas s + 1))
    ∈ new_emissions s s2.
Proof.
  intros _ Hnone Hid. cbv zeta.
  assert ((post_solve_enigma req w s).2 = s) as ->.
  { unfold post_solve_enigma, gated.
    destruct (checkVpn req w) as [[|status body]|e]; try done.
    unfold solve_enigma, try_catch, bind, firebase, ret, user_once.
    destruct (rejects w 0%nat); cbn; rewrite ?Hnone; done. }
  cbn [socket_step]. unfold connected. rewrite bool_decide_eq_true_2 by done.
  split_and!; [done|apply on_enigma_solved_solved|].
  rewrite on_enigma_solved_emits. by left.
Qed.

Lemma refused_solve_is_counted_over_the_socket_witness :
  solvedEnigmas
    (socket_step Samples.quiet (EnigmaSolved "s1")
       (post_solve_enigma (Samples.plain_request "203.0.113.5" "ghost" "1")
          Samples.quiet (Samples.one_socket 5)).2)
  = 5 + 1.
Proof.
  destruct (refused_solve_is_counted_over_the_socket
              (Samples.plain_request "203.0.113.5" "ghost" "1")
              Samples.quiet Samples.quiet "s1" (Samples.one_socket 5))
    as (_ & Hn & _);
    [vm_compute; reflexivity|vm_compute; reflexivity|by left|exact Hn].
Defined.

End Realtime.

(** ** Start-up *)

Section StartUp.

(** X17.  [initializeCounters] never throws and touches neither users nor
    sockets.  When the read rejects nothing changes.  When the [stats]
    node exists the in-memory counters become the persisted ones, absent
    children read as 0, and the node is left alone.  When it does not
    exist the in-memory counters stay and a node of zeros is written,
    unless that write rejects. *)
Theorem initializeCounters_hydrates (w : World) (s : State) :
  let r := initializeCounters w s in
  r.1 = Ok tt
  ∧ users r.2 = users s ∧ sockets r.2 = sockets s ∧ emitted r.2 = emitted s
  ∧ (rejects w 0%nat = true → r.2 = s)
  ∧ (rejects w 0%nat = false → is_Some (stats s) →
     counters r.2 = persisted s ∧ stats r.2 = stats s)
  ∧ (rejects w 0%nat = false → stats s = None →
     counters r.2 = counters s
     ∧ (rejects w 1%nat = true → r.2 = s)
     ∧ (rejects w 1%nat = false → persisted r.2 = (0, 0, 0) ∧ is_Some (stats r.2))).
Proof.
  cbv zeta.
  unfold initializeCounters, try_catch, bind, firebase, ret, stats_once, persisted.
  destruct (rejects w 0%nat), (stats s) as [st|] eqn:Hst, (rejects w 1%nat); cbn;
    rewrite ?Hst; split_and!; try done; try (by intros _ [? ?]).
  all: intros; split_and!; done.
Qed.

End StartUp.

(** ** The reputation service: cache discipline *)

Section CacheDiscipline.

Lemma checkIp_config svc ip env :
  apiKey (service_after (checkIp svc ip env)) = apiKey svc
  ∧ enabled (service_after (checkIp svc ip env)) = enabled svc
  ∧ cacheExpiration (service_after (checkIp svc ip env)) = cacheExpiration svc.
Proof.
  unfold checkIp, service_after. destruct (enabled svc) eqn:Hen; cbn; [|done].
  destruct (cache svc !! ip) as [e|]; [case_match|];
    try destruct (lookup_provider _ _ _ _) as [[v c] calls]; done.
Qed.

Lemma lookup_provider_frame svc c ip env ip' :
  ip' ≠ ip → service_after (lookup_provider svc c ip env) !! ip' = c !! ip'.
Proof.
  intros Hne. unfold lookup_provider, service_after.
  destruct (has_real_key svc); [destruct (axios_get env) as [|[d|]]|]; cbn;
    by rewrite ?lookup_insert_ne.
Qed.

(** X18.  A lookup of one address leaves the entries of every other address
    and the configuration of the service as they are. *)
Theorem checkIp_leaves_other_addresses
    (svc : Service) (ip ip' : string) (env : CheckEnv) :
  ip' ≠ ip →
  cache (service_after (checkIp svc ip env)) !! ip' = cache svc !! ip'
  ∧ apiKey (service_after (checkIp svc ip env)) = apiKey svc
  ∧ enabled (service_after (checkIp svc ip env)) = enabled svc
  ∧ cacheExpiration (service_after (checkIp svc ip env)) = cacheExpiration svc.
Proof.
  intros Hne. split; [|apply checkIp_config].
  unfold checkIp. destruct (enabled svc); cbn; [|done].
  destruct (cache svc !! ip) as [e|]; [case_match; [done|]|].
  - pose proof (lookup_provider_frame svc (delete ip (cache svc)) ip env ip' Hne) as Hfr.
    destruct (lookup_provider _ _ _ _) as [[v c] calls]. cbn in *.
    by rewrite Hfr, lookup_delete_ne.
  - pose proof (lookup_provider_frame svc (cache svc) ip env ip' Hne) as Hfr.
    by destruct (lookup_provider _ _ _ _) as [[v c] calls].
Qed.

Lemma checkIp_leaves_other_addresses_witness :
  cache (service_after (checkIp Samples.warmed "198.51.100.7" (Samples.env_at 5 Rejected)))
    !! "203.0.113.5"
  = cache Samples.warmed !! "203.0.113.5".
Proof.
  destruct (checkIp_leaves_other_addresses Samples.warmed "198.51.100.7" "203.0.113.5"
              (Samples.env_at 5 Rejected)) as [Hc _]; [discriminate|exact Hc].
Defined.

(** X19.  An entry whose age has reached the cache lifetime is never served:
    the lookup goes to the provider (or to the simulation), and
    afterwards the address has either no entry, with the permissive
    verdict returned, or an entry holding the verdict just returned,
    stamped with the time of the store. *)
Theorem expired_entry_is_replaced
    (svc : Service) (ip : string) (env : CheckEnv) (e : CacheEntry) :
  enabled svc = true →
  cache svc !! ip = Some e →
  cacheExpiration svc <= now_check env - timestamp e →
  let r := checkIp svc ip env in
  calls_of r = (if has_real_key svc then [ip] else [])
  ∧ ((cache (service_after r) !! ip = None ∧ verdict_of r = allow_verdict)
     ∨ cache (service_after r) !! ip
       = Some {| timestamp := now_store env; data := verdict_of r |}).
Proof.
  intros Hen He Hage. cbv zeta.
  destruct (checkIp_miss svc ip env Hen) as (c & Hc & ->).
  { intros e' He'. by simplify_eq. }
  unfold lookup_provider, verdict_of, service_after, calls_of.
  destruct (has_real_key svc); [destruct (axios_get env) as [|[d|]]|]; cbn;
    (split; [done|]); rewrite ?lookup_insert_eq; auto.
Qed.

Lemma expired_entry_is_replaced_witness :
  calls_of (checkIp Samples.warmed "203.0.113.5" (Samples.env_at 3600040 Rejected))
  = ["203.0.113.5"].
Proof.
  destruct (expired_entry_is_replaced Samples.warmed "203.0.113.5"
              (Samples.env_at 3600040 Rejected)
              {| timestamp := 40; data := result_of_response Samples.tor_exit |})
    as [Hc _]; [vm_compute; reflexivity| vm_compute; reflexivity
               | vm_compute; discriminate | exact Hc].
Defined.

(** X20.  After [clearCache] the cache is empty and the configuration is
    unchanged, so on an enabled service with a real key the next lookup
    of any address asks the provider, however fresh its entry was. *)
Theorem clearCache_forces_a_new_lookup (svc : Service) (ip : string) (env : CheckEnv) :
  enabled svc = true →
  has_real_key svc = true →
  cache (clearCache svc) = ∅
  ∧ calls_of (checkIp (clearCache svc) ip env) = [ip].
Proof.
  intros Hen Hk. split; [done|].
  destruct (checkIp_miss (clearCache svc) ip env) as (c & _ & ->).
  - done.
  - intros e He. cbn in He. by rewrite lookup_empty in He.
  - unfold calls_of at 1. cbn. by apply lookup_provider_calls.
Qed.

Lemma clearCache_forces_a_new_lookup_witness :
  calls_of (checkIp (clearCache Samples.warmed) "203.0.113.5" (Samples.env_at 1000 Rejected))
  = ["203.0.113.5"].
Proof.
  destruct (clearCache_forces_a_new_lookup Samples.warmed "203.0.113.5"
              (Samples.env_at 1000 Rejected)) as [_ Hc];
    [vm_compute; reflexivity..|exact Hc].
Defined.

(** X21.  A verdict is kept for the cache lifetime: when a lookup ran the
    provider block without a failure, a second lookup of the address that
    starts less than a lifetime later returns the same verdict and asks
    nobody, whatever the provider or the random draws would say then. *)
Theorem verdict_is_kept_for_the_lifetime
    (svc : Service) (ip : string) (env1 env2 : CheckEnv) :
  enabled svc = true →
  (∀ e, cache svc !! ip = Some e →
        cacheExpiration svc <= now_check env1 - timestamp e) →
  ¬ (has_real_key svc = true ∧ failed (axios_get env1) = true) →
  within_ttl svc env1 env2 →
  let r1 := checkIp svc ip env1 in
  let r2 := checkIp (service_after r1) ip env2 in
  verdict_of r2 = verdict_of r1
  ∧ calls_of r2 = []
  ∧ service_after r2 = service_after r1.
Proof.
  intros Hen Hold Hok [Hmono Hclose]. cbv zeta.
  destruct (checkIp_miss svc ip env1 Hen Hold) as (c & Hc & ->).
  destruct (lookup_provider_stores svc c ip env1 Hok) as (v & ->).
  unfold service_after at 1 3 4, verdict_of at 2. cbn.
  rewrite (checkIp_hit _ ip env2 {| timestamp := now_store env1; data := v |});
    [done|done|apply lookup_insert_eq|cbn; lia].
Qed.

Lemma verdict_is_kept_for_the_lifetime_witness :
  verdict_of
    (checkIp
       (service_after (checkIp Samples.production "203.0.113.5"
                         (Samples.env_at 0 (Resolved (Some Samples.tor_exit)))))
       "203.0.113.5" (Samples.env_at 1000 Rejected))
  = verdict_of (checkIp Samples.production "203.0.113.5"
                  (Samples.env_at 0 (Resolved (Some Samples.tor_exit)))).
Proof.
  destruct (verdict_is_kept_for_the_lifetime Samples.production "203.0.113.5"
              (Samples.env_at 0 (Resolved (Some Samples.tor_exit)))
              (Samples.env_at 1000 Rejected)) as [Hv _]; [..|exact Hv].
  - reflexivity.
  - intros e He. vm_compute in He. discriminate.
  - intros [_ Hf]. discriminate Hf.
  - split; vm_compute; [discriminate|reflexivity].
Defined.

End CacheDiscipline.

(** ** The reputation service: verdicts and the middleware *)

Section Verdicts.

Lemma Qltb_lt x y : Qltb x y = true ↔ (x < y)%Q.
Proof.
  unfold Qltb. rewrite negb_true_iff, <- not_true_iff_false, Qle_bool_iff.
  split; [apply Qnot_le_lt|apply Qlt_not_le].
Qed.

(** [Math.floor(r * n)] for a draw [r] of [Math.random()]. *)
Lemma floor_of_scaled_draw (r : Q) (n : Z) :
  0 < n → (0 <= r)%Q → (r < 1)%Q → 0 <= Qfloor (r * inject_Z n) < n.
Proof.
  intros Hn H0 H1. split.
  - change 0 with (Qfloor (inject_Z 0)) at 1. apply Qfloor_resp_le.
    apply Qmult_le_0_compat; [done|]. change 0%Q with (inject_Z 0).
    rewrite <- Zle_Qle. lia.
  - rewrite Zlt_Qlt. eapply Qle_lt_trans; [apply Qfloor_le|].
    rewrite <- (Qmult_1_l (inject_Z n)) at 2.
    apply Qmult_lt_compat_r; [|done]. change 0%Q with (inject_Z 0).
    rewrite <- Zlt_Qlt. done.
Qed.

(** X22.  The simulated verdict, for draws in [[0, 1)]: it is suspicious
    exactly when the first draw is below 5%; a clean verdict has the three
    signals off and a fraud score from 0 to 29; a suspicious one has
    boolean signals, possibly all off, and a fraud score from 50 to 99. *)
Theorem simulated_verdict_shape (rnd : nat → Q) :
  (∀ i, (0 <= rnd i)%Q ∧ (rnd i < 1)%Q) →
  let v := simulated_result rnd in
  (truthy (isVpn v) = true ↔ (rnd 0%nat < 5 # 100)%Q)
  ∧ (truthy (isVpn v) = false →
     isVpn v = VBool false ∧ proxy v = VBool false ∧ vpn v = VBool false
     ∧ tor v = VBool false ∧ ∃ n, fraudScore v = VNum n ∧ 0 <= n < 30)
  ∧ (truthy (isVpn v) = true →
     isVpn v = VBool true
     ∧ (∃ p q t, proxy v = VBool p ∧ vpn v = VBool q ∧ tor v = VBool t)
     ∧ ∃ n, fraudScore v = VNum n ∧ 50 <= n < 100).
Proof.
  intros Hrnd. cbv zeta. unfold simulated_result.
  destruct (Qltb (rnd 0%nat) (5 # 100)) eqn:Hd;
    cbn [isVpn proxy vpn tor fraudScore truthy].
  - split_and!; [by rewrite <- Qltb_lt|done|]. intros _.
    split_and!; [done|do 3 eexists; done|].
    destruct (Hrnd 4%nat) as [H0 H1].
    assert (0 <= Qfloor (rnd 4%nat * 50) < 50)
      by (apply (floor_of_scaled_draw _ 50); [lia|done..]).
    eexists. split; [reflexivity|]. lia.
  - split_and!.
    + rewrite <- Qltb_lt, Hd. done.
    + intros _. split_and!; try done.
      destruct (Hrnd 1%nat) as [H0 H1].
      assert (0 <= Qfloor (rnd 1%nat * 30) < 30)
        by (apply (floor_of_scaled_draw _ 30); [lia|done..]).
      eexists. split; [reflexivity|]. lia.
    + done.
Qed.

Lemma simulated_verdict_shape_witness :
  isVpn (simulated_result (λ _, 1 # 2)) = VBool false
  ∧ ∃ n, fraudScore (simulated_result (λ _, 1 # 2)) = VNum n ∧ 0 <= n < 30.
Proof.
  destruct (simulated_verdict_shape (λ _, 1 # 2)) as (_ & Hclean & _).
  - intros i. split; vm_compute; [discriminate|reflexivity].
  - destruct Hclean as (Hv & _ & _ & _ & Hn); [reflexivity|].
    exact (conj Hv Hn).
Defined.

(** X23.  Without a usable API key (none, an empty one, or the placeholder)
    no lookup ever sends a request to the provider. *)
Theorem no_key_no_provider_request (svc : Service) (ip : string) (env : CheckEnv) :
  apiKey svc = None ∨ apiKey svc = Some "" ∨ apiKey svc = Some "your_api_key_here" →
  calls_of (checkIp svc ip env) = [].
Proof.
  intros Hkey.
  assert (has_real_key svc = false) as Hk
    by (unfold has_real_key; by destruct Hkey as [-> | [-> | ->]]).
  unfold checkIp, calls_of. destruct (enabled svc); cbn; [|done].
  destruct (cache svc !! ip) as [e|]; [case_match; [done|]|];
    by rewrite (lookup_provider_simulated _ _ _ _ Hk).
Qed.

Lemma no_key_no_provider_request_witness :
  calls_of (checkIp (constructor (Some "your_api_key_here") (Some "true"))
              "203.0.113.5" (Samples.env_at 0 Rejected))
  = [].
Proof.
  apply (no_key_no_provider_request
           (constructor (Some "your_api_key_here") (Some "true"))).
  right. right. reflexivity.
Defined.

Lemma truthy_or a b : truthy (Js.or a b) = truthy a || truthy b.
Proof. unfold Js.or. by destruct (truthy a) eqn:Ha; rewrite ?Ha. Qed.

(** X24.  When the middleware gets its verdict from a provider response, the
    request is rejected exactly when one of the three signals of the
    response is truthy; the fraud score plays no part. *)
Theorem provider_signals_decide_the_block
    (svc : Service) (req : Request) (env : CheckEnv) (ip : string) (d : ResponseData) :
  client_ip req = Ok (Some ip) →
  is_local (replace_ffff ip) = false →
  calls_of (checkIp svc (replace_ffff ip) env) = [replace_ffff ip] →
  axios_get env = Resolved (Some d) →
  ∃ r, middleware svc req env = Ok r
       ∧ vpnCheck r = Some (result_of_response d)
       ∧ outcome r
         = if truthy (r_proxy d) || truthy (r_vpn d) || truthy (r_tor d)
           then Respond 403 (blocked_body (result_of_response d))
           else Next.
Proof.
  intros Hip Hlocal Hcalls Hd.
  destruct (checkIp_stores_resolved_body svc (replace_ffff ip) env d Hcalls Hd)
    as [Hv _].
  unfold middleware, middleware_try. rewrite Hip. cbn [clean_ip]. rewrite Hlocal.
  destruct (checkIp svc (replace_ffff ip) env) as [[v svc'] calls].
  unfold verdict_of in Hv. cbn in Hv. subst v.
  assert (truthy (isVpn (result_of_response d))
          = truthy (r_proxy d) || truthy (r_vpn d) || truthy (r_tor d)) as ->
    by (cbn; by rewrite !truthy_or).
  destruct (truthy (r_proxy d) || truthy (r_vpn d) || truthy (r_tor d));
    eexists; split_and!; reflexivity.
Qed.

Lemma provider_signals_decide_the_block_witness :
  ∃ r, middleware Samples.production (Samples.plain_request "203.0.113.5" "u1" "1")
         (Samples.env_at 0 (Resolved (Some Samples.tor_exit))) = Ok r
       ∧ outcome r = Respond 403 (blocked_body (result_of_response Samples.tor_exit)).
Proof.
  destruct (provider_signals_decide_the_block Samples.production
              (Samples.plain_request "203.0.113.5" "u1" "1")
              (Samples.env_at 0 (Resolved (Some Samples.tor_exit)))
              "203.0.113.5" Samples.tor_exit)
    as (r & Hr & _ & Ho); [vm_compute; reflexivity..|].
  exists r. exact (conj Hr Ho).
Defined.

(** X25.  A disabled service admits every request: the middleware calls
    [next()], leaves the service as it is and asks the provider nothing. *)
Theorem disabled_service_admits_everyone
    (svc : Service) (req : Request) (env : CheckEnv) :
  enabled svc = false →
  ∃ r, middleware svc req env = Ok r
       ∧ outcome r = Next ∧ service r = svc ∧ provider_calls r = [].
Proof.
  intros Hoff. unfold middleware, middleware_try.
  destruct (client_ip req) as [ip|e]; [|by eexists].
  destruct (clean_ip ip) as [cleanIp|e]; [|by eexists].
  destruct (is_local cleanIp); [by eexists|].
  rewrite (checkIp_disabled svc cleanIp env Hoff). cbn. by eexists.
Qed.

Lemma disabled_service_admits_everyone_witness :
  ∃ r, middleware (constructor (Some "k3y") None)
         (Samples.plain_request "203.0.113.5" "u1" "1")
         (Samples.env_at 0 (Resolved (Some Samples.tor_exit))) = Ok r
       ∧ outcome r = Next.
Proof.
  destruct (disabled_service_admits_everyone (constructor (Some "k3y") None)
              (Samples.plain_request "203.0.113.5" "u1" "1")
              (Samples.env_at 0 (Resolved (Some Samples.tor_exit))))
    as (r & Hr & Ho & _); [reflexivity|].
  exists r. exact (conj Hr Ho).
Defined.

(** X26.  A non-empty [x-forwarded-for] header is the client address: the
    [x-real-ip] header and the connection are not consulted, so a request
    whose header passes the local test is admitted whoever sends it. *)
Theorem forwarded_header_is_the_address
    (svc : Service) (req : Request) (env : CheckEnv) (h : string) :
  x_forwarded_for req = Some h →
  h ≠ "" →
  client_ip req = Ok (Some h)
  ∧ (is_local (replace_ffff h) = true →
     middleware svc req env
     = Ok {| outcome := Next; service := svc; vpnCheck := None; provider_calls := [] |}).
Proof.
  intros Hh Hne.
  assert (client_ip req = Ok (Some h)) as Hip.
  { unfold client_ip, Js.or_str. rewrite Hh.
    apply String.eqb_neq in Hne. by rewrite !Hne. }
  split; [done|]. intros Hlocal.
  unfold middleware, middleware_try. rewrite Hip. cbn [clean_ip]. by rewrite Hlocal.
Qed.

Lemma forwarded_header_is_the_address_witness :
  middleware Samples.production
    {| x_forwarded_for := Some "10.9.8.7, 203.0.113.5"; x_real_ip := Some "203.0.113.5";
       connection := None; userId := "u1"; level := "1" |}
    (Samples.env_at 0 (Resolved (Some Samples.tor_exit)))
  = Ok {| outcome := Next; service := Samples.production; vpnCheck := None;
          provider_calls := [] |}.
Proof.
  destruct (forwarded_header_is_the_address Samples.production
              {| x_forwarded_for := Some "10.9.8.7, 203.0.113.5";
                 x_real_ip := Some "203.0.113.5";
                 connection := None; userId := "u1"; level := "1" |}
              (Samples.env_at 0 (Resolved (Some Samples.tor_exit)))
              "10.9.8.7, 203.0.113.5") as [_ Hm]; [reflexivity|discriminate|].
  apply Hm. vm_compute. reflexivity.
Defined.

(** X27.  The IPv4-mapped form of an address and its plain form are one key:
    the middleware treats both requests alike, cache entry included. *)
Theorem mapped_address_shares_the_entry
    (svc : Service) (req1 req2 : Request) (env : CheckEnv) (a : string) :
  client_ip req1 = Ok (Some ("::ffff:" +:+ a)) →
  client_ip req2 = Ok (Some a) →
  replace_ffff a = a →
  middleware svc req1 env = middleware svc req2 env.
Proof.
  intros H1 H2 Ha. unfold middleware, middleware_try. rewrite H1, H2.
  cbn [clean_ip]. by rewrite replace_ffff_mapped, Ha.
Qed.

Lemma mapped_address_shares_the_entry_witness :
  middleware Samples.warmed (Samples.plain_request "::ffff:203.0.113.5" "u1" "1")
    (Samples.env_at 1000 Rejected)
  = middleware Samples.warmed (Samples.plain_request "203.0.113.5" "u1" "1")
      (Samples.env_at 1000 Rejected).
Proof.
  apply (mapped_address_shares_the_entry Samples.warmed
           (Samples.plain_request "::ffff:203.0.113.5" "u1" "1")
           (Samples.plain_request "203.0.113.5" "u1" "1")
           (Samples.env_at 1000 Rejected) "203.0.113.5");
    vm_compute; reflexivity.
Defined.

End Verdicts.
